(** * ECG filter pipeline (src/src/ecg/ecg_filters.py)

    A shallow embedding of the three filter stages ([apply_dft_filter],
    [apply_emg_filter], [apply_ac_filter]) and of the orchestrator
    [apply_ecg_filters].

    - Python floats are IEEE binary64: Rocq's primitive [float].
    - numpy arrays are objects: a location in a heap of sample lists, so
      that "the same object" and "a new object" can be told apart.
    - [print] appends to the standard output kept in the state.
    - exceptions are a [Raise] result; [try_except] is Python's
      [try: ... except Exception as e: ...].
    - [float()], [scipy.signal.butter], [scipy.signal.iirnotch] and
      [scipy.signal.filtfilt] are not code of this repository: the model
      takes them as an interface ([Externals]) and every theorem holds for
      any implementation of it. *)

From Stdlib Require Import String Ascii ZArith Bool Lia Floats List.
Import ListNotations.

(** ** The Python runtime the module relies on *)

Module Py.

(** Exceptions, all of them subclasses of [Exception]. *)
Inductive exn : Type :=
| ZeroDivisionError
| ValueError
| TypeError
| LibraryError (name : string).

Inductive result (A : Type) : Type :=
| Ok (a : A)
| Raise (e : exn).
Arguments Ok {A} a.
Arguments Raise {A} e.

(** [x / y] on floats: a zero divisor (of either sign) raises. *)
Definition truediv (x y : float) : result float :=
  if (y =? 0)%float then Raise ZeroDivisionError else Ok (x / y)%float.
Arguments truediv : simpl never.

(** A filter selector is an [Optional[str]]. *)
Definition selector : Type := option string.

(** [bool(sel)]: [None] and the empty string are falsy. *)
Definition truthy (sel : selector) : bool :=
  match sel with
  | None => false
  | Some s => negb (String.eqb s EmptyString)
  end.

(** [sel == lit] for a string literal [lit]. *)
Definition eq_str (sel : selector) (lit : string) : bool :=
  match sel with
  | None => false
  | Some s => String.eqb s lit
  end.

End Py.
Import Py.

(** ** Objects, diagnostics and the state *)

Definition loc : Type := nat.

Inductive stage : Type := AC | EMG | DFT.

(** What the stages print. *)
Inductive message : Type :=
| InvalidFrequency (st : stage) (freq sampling_rate : float)
| FilterError (st : stage) (sel : selector) (e : exn).

Record state : Type := mkState {
  heap : list (list float);   (* the numpy arrays allocated so far *)
  stdout : list message       (* what has been printed, oldest first *)
}.

(** The samples held by the array at [l]. *)
Definition contents (s : state) (l : loc) : list float :=
  nth l (heap s) [].

Definition allocated (s : state) (l : loc) : Prop := l < length (heap s).

(** The signal argument of the orchestrator: [Union[np.ndarray, list]]. *)
Inductive pyobj : Type :=
| NdArray (l : loc)
| PyList (xs : list float).

Definition samples (s : state) (o : pyobj) : list float :=
  match o with
  | NdArray l => contents s l
  | PyList xs => xs
  end.

(** ** A state and exception monad *)

Definition M (A : Type) : Type := state -> result A * state.

Definition ret {A} (a : A) : M A := fun s => (Ok a, s).

Definition raise {A} (e : exn) : M A := fun s => (Raise e, s).

Definition bind {A B} (m : M A) (k : A -> M B) : M B :=
  fun s =>
    match m s with
    | (Ok a, s') => k a s'
    | (Raise e, s') => (Raise e, s')
    end.

Definition try_except {A} (body : M A) (handler : exn -> M A) : M A :=
  fun s =>
    match body s with
    | (Ok a, s') => (Ok a, s')
    | (Raise e, s') => handler e s'
    end.

Definition lift {A} (r : result A) : M A := fun s => (r, s).

Declare Scope py_scope.
Delimit Scope py_scope with py.
Notation "x <- m ;; k" := (bind m (fun x => k))
  (at level 100, m at next level, right associativity) : py_scope.
Notation "m ;;; k" := (bind m (fun _ => k))
  (at level 100, right associativity) : py_scope.
Open Scope py_scope.

Definition print (msg : message) : M unit :=
  fun s => (Ok tt, mkState (heap s) (stdout s ++ [msg])).

(** A new array object holding [xs]. *)
Definition alloc (xs : list float) : M loc :=
  fun s => (Ok (length (heap s)), mkState (heap s ++ [xs]) (stdout s)).

(** [len(signal)] *)
Definition len (l : loc) : M nat :=
  fun s => (Ok (length (contents s l)), s).

(** [signal.copy()] *)
Definition copy (l : loc) : M loc :=
  fun s => alloc (contents s l) s.

(** [np.array(signal, dtype=float)] on a list of numbers. *)
Definition np_array (xs : list float) : M loc := alloc xs.

(** ** The external interface *)

Inductive btype : Type := lowpass | highpass | bandpass | bandstop.

(** Filter coefficients [(b, a)]. *)
Definition coeffs : Type := (list float * list float)%type.

Record Externals : Type := {
  (** the builtin [float(s)] on a string *)
  py_float : string -> result float;
  (** [scipy.signal.butter(N, Wn, btype=...)] *)
  butter : nat -> float -> btype -> result coeffs;
  (** [scipy.signal.iirnotch(w0, Q)] *)
  iirnotch : float -> float -> result coeffs;
  (** [scipy.signal.filtfilt(b, a, x)] on the samples of [x] *)
  filtfilt_samples : coeffs -> list float -> result (list float)
}.

Section Filters.

Variable E : Externals.

(** [float(sel)]: [float(None)] is a [TypeError]. *)
Definition float_of (sel : selector) : M float :=
  match sel with
  | None => raise TypeError
  | Some s => lift (py_float E s)
  end.

(** [filtfilt(b, a, signal)]: reads the array, returns a new one. *)
Definition filtfilt (ba : coeffs) (signal : loc) : M loc :=
  fun s =>
    match filtfilt_samples E ba (contents s signal) with
    | Ok ys => alloc ys s
    | Raise e => (Raise e, s)
    end.

Definition div (x y : float) : M float := lift (truediv x y).

(** The [try] block of [apply_ac_filter]. *)
Definition ac_body (signal : loc) (sampling_rate : float)
    (ac_filter : selector) : M loc :=
  notch_freq <- float_of ac_filter ;;
  nyquist <- div sampling_rate 2 ;;
  let quality_factor := 30%float in
  w0 <- div notch_freq nyquist ;;
  if (w0 <=? 0)%float || (1 <=? w0)%float then
    print (InvalidFrequency AC notch_freq sampling_rate) ;;;
    ret signal
  else
    ba <- lift (iirnotch E w0 quality_factor) ;;
    filtered_signal <- filtfilt ba signal ;;
    ret filtered_signal.

Definition apply_ac_filter (signal : loc) (sampling_rate : float)
    (ac_filter : selector) : M loc :=
  if eq_str ac_filter "off" || negb (truthy ac_filter) then ret signal
  else
    try_except (ac_body signal sampling_rate ac_filter)
      (fun e => print (FilterError AC ac_filter e) ;;; ret signal).

(** The [try] block of [apply_emg_filter]. *)
Definition emg_body (signal : loc) (sampling_rate : float)
    (emg_filter : selector) : M loc :=
  cutoff_freq <- float_of emg_filter ;;
  nyquist <- div sampling_rate 2 ;;
  normalized_cutoff <- div cutoff_freq nyquist ;;
  if (normalized_cutoff <=? 0)%float || (1 <=? normalized_cutoff)%float then
    print (InvalidFrequency EMG cutoff_freq sampling_rate) ;;;
    ret signal
  else
    ba <- lift (butter E 4 normalized_cutoff highpass) ;;
    filtered_signal <- filtfilt ba signal ;;
    ret filtered_signal.

Definition apply_emg_filter (signal : loc) (sampling_rate : float)
    (emg_filter : selector) : M loc :=
  if negb (truthy emg_filter) || eq_str emg_filter "off" then ret signal
  else
    try_except (emg_body signal sampling_rate emg_filter)
      (fun e => print (FilterError EMG emg_filter e) ;;; ret signal).

(** The [try] block of [apply_dft_filter]. *)
Definition dft_body (signal : loc) (sampling_rate : float)
    (dft_filter : selector) : M loc :=
  cutoff_freq <- float_of dft_filter ;;
  nyquist <- div sampling_rate 2 ;;
  normalized_cutoff <- div cutoff_freq nyquist ;;
  if (normalized_cutoff <=? 0)%float || (1 <=? normalized_cutoff)%float then
    print (InvalidFrequency DFT cutoff_freq sampling_rate) ;;;
    ret signal
  else
    ba <- lift (butter E 2 normalized_cutoff highpass) ;;
    filtered_signal <- filtfilt ba signal ;;
    ret filtered_signal.

Definition apply_dft_filter (signal : loc) (sampling_rate : float)
    (dft_filter : selector) : M loc :=
  if eq_str dft_filter "off" || negb (truthy dft_filter) then ret signal
  else
    try_except (dft_body signal sampling_rate dft_filter)
      (fun e => print (FilterError DFT dft_filter e) ;;; ret signal).

(** The orchestrator. *)
Definition apply_ecg_filters (signal : pyobj) (sampling_rate : float)
    (ac_filter emg_filter dft_filter : selector) : M loc :=
  signal <- match signal with
            | NdArray l => ret l
            | PyList xs => np_array xs
            end ;;
  n <- len signal ;;
  if n <? 10 then ret signal
  else
    filtered <- copy signal ;;
    filtered <- (if truthy dft_filter
                 then apply_dft_filter filtered sampling_rate dft_filter
                 else ret filtered) ;;
    filtered <- (if truthy emg_filter
                 then apply_emg_filter filtered sampling_rate emg_filter
                 else ret filtered) ;;
    filtered <- (if truthy ac_filter
                 then apply_ac_filter filtered sampling_rate ac_filter
                 else ret filtered) ;;
    ret filtered.

End Filters.

(** ** An executable instance of the external interface

    Used to run the model on concrete inputs.  [Ref.py_float] is the
    builtin [float()] on plain decimal literals (an optional sign, digits,
    an optional fraction), correctly rounded; on anything else it answers
    [ValueError].  The filter routines are small stand-ins with the call
    shapes of SciPy's: [Ref.butter N] designs the [N]-th order difference
    (a high-pass of [N + 1] taps), [Ref.iirnotch] a three-tap notch, and
    [Ref.filtfilt_samples] runs the difference equation forward and then
    backward, refusing inputs no longer than the padding length as
    SciPy does. *)

Module Ref.

Definition digit_of (c : ascii) : option Z :=
  let n := (Z.of_nat (nat_of_ascii c) - 48)%Z in
  if ((0 <=? n) && (n <=? 9))%Z then Some n else None.

(** Reads a run of digits: the value accumulated, how many digits were
    read, and what follows them. *)
Fixpoint read_digits (s : string) (acc : Z) (n : nat) : Z * nat * string :=
  match s with
  | String c s' =>
      match digit_of c with
      | Some d => read_digits s' (10 * acc + d)%Z (S n)
      | None => (acc, n, s)
      end
  | EmptyString => (acc, n, s)
  end.

(** [digits [. digits]] as a numerator and a power of ten. *)
Definition decimal (s : string) : option (Z * nat) :=
  let '(ip, ni, rest) := read_digits s 0%Z 0 in
  match rest with
  | EmptyString => if ni =? 0 then None else Some (ip, 0)
  | String "."%char rest' =>
      let '(v, nf, rest'') := read_digits rest' ip 0 in
      match rest'' with
      | EmptyString => if ni + nf =? 0 then None else Some (v, nf)
      | _ => None
      end
  | _ => None
  end.

(** The binary64 nearest to [n / 10^k], with the sign [neg]. *)
Definition float_of_ratio (neg : bool) (n : Z) (k : nat) : float :=
  match n with
  | Zpos p =>
      SF2Prim (SFdiv prec emax (S754_finite neg p 0)
                 (S754_finite false (Z.to_pos (10 ^ Z.of_nat k)) 0))
  | _ => SF2Prim (S754_zero neg)
  end.

Definition py_float (s : string) : result float :=
  let '(neg, body) :=
    match s with
    | String "-"%char s' => (true, s')
    | String "+"%char s' => (false, s')
    | _ => (false, s)
    end in
  match decimal body with
  | Some (n, k) => Ok (float_of_ratio neg n k)
  | None => Raise ValueError
  end.

Definition dot (c x : list float) : float :=
  fold_right (fun p acc => (fst p * snd p + acc)%float) 0%float (combine c x).

(** Direct form of [a0 y[n] = sum b[k] x[n-k] - sum a[k] y[n-k]];
    [xh] and [yh] are the inputs and outputs so far, latest first. *)
Fixpoint lfilter_from (b a' : list float) (a0 : float)
    (xh yh xs : list float) : list float :=
  match xs with
  | [] => []
  | x :: xs' =>
      let xh' := x :: xh in
      let y := ((dot b xh' - dot a' yh) / a0)%float in
      y :: lfilter_from b a' a0 xh' (y :: yh) xs'
  end.

Definition lfilter (ba : coeffs) (xs : list float) : result (list float) :=
  match snd ba with
  | [] => Raise ValueError
  | a0 :: a' => Ok (lfilter_from (fst ba) a' a0 [] [] xs)
  end.

Definition filtfilt_samples (ba : coeffs) (xs : list float)
    : result (list float) :=
  let padlen := 3 * Nat.max (length (snd ba)) (length (fst ba)) in
  if length xs <=? padlen then Raise ValueError
  else
    match lfilter ba xs with
    | Raise e => Raise e
    | Ok fwd =>
        match lfilter ba (rev fwd) with
        | Raise e => Raise e
        | Ok bwd => Ok (rev bwd)
        end
    end.

(** Coefficients of [(1 - z^-1)^n]. *)
Fixpoint difference (n : nat) : list float :=
  match n with
  | 0 => [1%float]
  | S n' =>
      let c := difference n' in
      map (fun p => (fst p - snd p)%float)
        (combine (c ++ [0%float]) (0%float :: c))
  end.

Definition in_unit_interval (w : float) : bool :=
  ((0 <? w) && (w <? 1))%float.

Definition butter (n : nat) (wn : float) (bt : btype) : result coeffs :=
  if in_unit_interval wn then Ok (difference n, [1%float])
  else Raise ValueError.

Definition iirnotch (w0 q : float) : result coeffs :=
  if in_unit_interval w0 then Ok ([1%float; 0%float; 1%float], [1%float])
  else Raise ValueError.

Definition externals : Externals :=
  Build_Externals py_float butter iirnotch filtfilt_samples.

(** Sample buffers for the examples. *)
Definition ramp (n : nat) : list float :=
  map (fun k => of_uint63 (Uint63.of_Z (Z.of_nat k))) (seq 1 n).

(** Twenty samples, all zero but a one in the middle. *)
Definition pulse : list float :=
  repeat 0%float 10 ++ [1%float] ++ repeat 0%float 9.

Definition empty : state := mkState [] [].

End Ref.

(** ** Vocabulary for the statements *)

Section Vocabulary.

Variable E : Externals.

(** The stage functions, by stage. *)
Definition apply_stage (g : stage) : loc -> float -> selector -> M loc :=
  match g with
  | AC => apply_ac_filter E
  | EMG => apply_emg_filter E
  | DFT => apply_dft_filter E
  end.

(** Their [try] blocks, by stage. *)
Definition stage_body (g : stage) : loc -> float -> selector -> M loc :=
  match g with
  | AC => ac_body E
  | EMG => emg_body E
  | DFT => dft_body E
  end.

(** The design call each stage makes at the normalized frequency [w]. *)
Definition design (g : stage) (w : float) : result coeffs :=
  match g with
  | AC => iirnotch E w 30
  | EMG => butter E 4 w highpass
  | DFT => butter E 2 w highpass
  end.

(** The range test of the stages: [w <= 0 or w >= 1]. *)
Definition out_of_range (w : float) : bool :=
  ((w <=? 0) || (1 <=? w))%float.

(** A selector that is neither absent nor ["off"]. *)
Definition enabled (sel : selector) : bool :=
  truthy sel && negb (eq_str sel "off").

Definition selector_of (ac emg dft : selector) (g : stage) : selector :=
  match g with
  | AC => ac
  | EMG => emg
  | DFT => dft
  end.

(** The stages [gs] applied left to right, each to the buffer the one
    before it returned. *)
Fixpoint compose_stages (gs : list stage) (rate : float)
    (sel : stage -> selector) (buf : loc) : M loc :=
  match gs with
  | [] => ret buf
  | g :: gs' =>
      buf' <- apply_stage g buf rate (sel g) ;;
      compose_stages gs' rate sel buf'
  end.

Definition documented_order : list stage := [DFT; EMG; AC].

(** The pipeline in the words of the specification: the input is made an
    array and copied, then the stages whose selector is present run in
    the documented order on the running buffer. *)
Definition pipeline_spec (signal : pyobj) (rate : float)
    (ac emg dft : selector) : M loc :=
  let sel := selector_of ac emg dft in
  arr <- match signal with
         | NdArray l => ret l
         | PyList xs => np_array xs
         end ;;
  filtered <- copy arr ;;
  compose_stages (filter (fun g => truthy (sel g)) documented_order)
    rate sel filtered.

(** What a stage does to a buffer holding [xs]: it keeps the object and
    prints [msgs], or it returns a new object holding [ys]. *)
Inductive effect : Type :=
| Keep (msgs : list message)
| Fresh (ys : list float).

Definition stage_effect (g : stage) (rate : float) (sel : selector)
    (xs : list float) : effect :=
  if enabled sel then
    match sel with
    | None => Keep [FilterError g sel TypeError]
    | Some s =>
        match py_float E s with
        | Raise e => Keep [FilterError g sel e]
        | Ok f =>
            match truediv rate 2 with
            | Raise e => Keep [FilterError g sel e]
            | Ok nyquist =>
                match truediv f nyquist with
                | Raise e => Keep [FilterError g sel e]
                | Ok w =>
                    if out_of_range w then Keep [InvalidFrequency g f rate]
                    else
                      match design g w with
                      | Raise e => Keep [FilterError g sel e]
                      | Ok ba =>
                          match filtfilt_samples E ba xs with
                          | Raise e => Keep [FilterError g sel e]
                          | Ok ys => Fresh ys
                          end
                      end
                end
            end
        end
    end
  else Keep [].

Definition commit (signal : loc) (eff : effect) (st : state)
    : result loc * state :=
  match eff with
  | Keep msgs => (Ok signal, mkState (heap st) (stdout st ++ msgs))
  | Fresh ys => alloc ys st
  end.

Definition effect_samples (xs : list float) (eff : effect) : list float :=
  match eff with
  | Keep _ => xs
  | Fresh ys => ys
  end.

Definition effect_output (eff : effect) : list message :=
  match eff with
  | Keep msgs => msgs
  | Fresh _ => []
  end.

(** The samples and the output after the stages [gs], from the samples
    [xs] of the buffer they start on. *)
Fixpoint stages_samples (gs : list stage) (rate : float)
    (sel : stage -> selector) (xs : list float) : list float :=
  match gs with
  | [] => xs
  | g :: gs' =>
      stages_samples gs' rate sel
        (effect_samples xs (stage_effect g rate (sel g) xs))
  end.

Fixpoint stages_output (gs : list stage) (rate : float)
    (sel : stage -> selector) (xs : list float) : list message :=
  match gs with
  | [] => []
  | g :: gs' =>
      let eff := stage_effect g rate (sel g) xs in
      effect_output eff ++ stages_output gs' rate sel (effect_samples xs eff)
  end.

(** The samples [apply_ecg_filters] returns and what it prints, from the
    samples of its input. *)
Definition pipeline_samples (rate : float) (ac emg dft : selector)
    (xs : list float) : list float :=
  if length xs <? 10 then xs
  else stages_samples documented_order rate (selector_of ac emg dft) xs.

Definition pipeline_output (rate : float) (ac emg dft : selector)
    (xs : list float) : list message :=
  if length xs <? 10 then []
  else stages_output documented_order rate (selector_of ac emg dft) xs.

(** [np.array] on a list, nothing on an array. *)
Definition as_array (signal : pyobj) : M loc :=
  match signal with
  | NdArray l => ret l
  | PyList xs => np_array xs
  end.

End Vocabulary.

(** The contract of [scipy.signal.filtfilt] on a one-dimensional input:
    the output has the shape of the input. *)
Definition filtfilt_keeps_length (E : Externals) : Prop :=
  forall ba xs ys, filtfilt_samples E ba xs = Ok ys -> length ys = length xs.

(** A binary64 value that is not a NaN and carries the sign [s]. *)
Definition signed (s : bool) (x : spec_float) : Prop :=
  match x with
  | S754_zero s' | S754_infinity s' | S754_finite s' _ _ => s' = s
  | S754_nan => False
  end.

(** Zero, a negative number or minus infinity. *)
Definition nonpositive (x : spec_float) : Prop :=
  match x with
  | S754_zero _ | S754_infinity true | S754_finite true _ _ => True
  | _ => False
  end.

(** Zero or a positive finite number. *)
Definition finite_nonnegative (x : spec_float) : Prop :=
  match x with
  | S754_zero _ | S754_finite false _ _ => True
  | _ => False
  end.

(** ** The settings adapter *)

(** The settings collaborator, seen through its one method
    [get_setting(key, default)]. *)
Definition settings : Type := string -> selector -> selector.

(** [SettingsManager] is the instance [SettingsManager()] builds when the
    caller passes no manager. *)
Definition apply_ecg_filters_from_settings (E : Externals)
    (SettingsManager : settings) (signal : pyobj) (sampling_rate : float)
    (settings_manager : option settings) : M loc :=
  let settings_manager :=
    match settings_manager with
    | None => SettingsManager
    | Some m => m
    end in
  let ac_filter := settings_manager "filter_ac"%string (Some "off"%string) in
  let emg_filter := settings_manager "filter_emg"%string (Some "150"%string) in
  let dft_filter := settings_manager "filter_dft"%string (Some "0.5"%string) in
  apply_ecg_filters E signal sampling_rate ac_filter emg_filter dft_filter.

(** ** Where the stages leave the buffer and the heap *)

(** One stage on the buffer [buf] of the heap [h]: the buffer it returns
    and the heap it leaves. *)
Definition step_heap (E : Externals) (g : stage) (rate : float)
    (sel : selector) (bh : loc * list (list float))
    : loc * list (list float) :=
  match stage_effect E g rate sel (nth (fst bh) (snd bh) []) with
  | Keep _ => bh
  | Fresh ys => (length (snd bh), snd bh ++ [ys])
  end.

Fixpoint stages_heap (E : Externals) (gs : list stage) (rate : float)
    (sel : stage -> selector) (bh : loc * list (list float))
    : loc * list (list float) :=
  match gs with
  | [] => bh
  | g :: gs' => stages_heap E gs' rate sel (step_heap E g rate (sel g) bh)
  end.



(** Two selectors that are the same or both disabled. *)
Definition same_or_disabled (sel sel' : selector) : Prop :=
  sel = sel' \/ (enabled sel = false /\ enabled sel' = false).

(** How many of the selectors are enabled. *)
Definition enabled_count (sels : list selector) : nat :=
  length (filter enabled sels).

(** ** The ADC table script (src/parse_adc_data.py)

    The script reads lines from the standard input, keeps the first eight
    numbers of every data line, and prints for each lead the highest
    value with its distance to the baseline in ADC units and in boxes.

    - a line is a string of code points below 256;
    - [int()] refuses a run of more than [int_max_str_digits] digits when
      the interpreter has such a limit ([None]: no limit);
    - a printed line is kept as fixed text, or as the fields a format
      string is given, before they are formatted;
    - an uncaught exception ends the script: what was printed before it
      stays printed. *)

Module AdcData.

(** How the script can end. *)
Inductive crash : Type :=
| IntDigitsLimit        (* ValueError: int() over the digit limit *)
| IntTooLargeForFloat   (* OverflowError: int too large to convert *)
| DivisionByZero.       (* ZeroDivisionError *)

Inductive outcome (A : Type) : Type :=
| Done (a : A)
| Crash (e : crash).
Arguments Done {A} a.
Arguments Crash {A} e.

(** [c.isspace()] below code point 256. *)
Definition isspace (c : ascii) : bool :=
  let n := nat_of_ascii c in
  ((9 <=? n) && (n <=? 13)) || ((28 <=? n) && (n <=? 32))
  || (n =? 133) || (n =? 160).

Fixpoint lstrip (s : string) : string :=
  match s with
  | String c s' => if isspace c then lstrip s' else s
  | EmptyString => s
  end.

Fixpoint rstrip (s : string) : string :=
  match s with
  | EmptyString => EmptyString
  | String c s' =>
      match rstrip s' with
      | EmptyString => if isspace c then EmptyString else String c EmptyString
      | t => String c t
      end
  end.

(** [line.strip()] *)
Definition strip (s : string) : string := rstrip (lstrip s).

(** [s.startswith(p)] *)
Definition startswith (s p : string) : bool := String.prefix p s.

Definition isdigit (c : ascii) : bool :=
  let n := nat_of_ascii c in (48 <=? n) && (n <=? 57).

Definition flush (run : string) : list string :=
  match run with
  | EmptyString => []
  | _ => [run]
  end.

(** [re.findall(r'\d+', line)]: the maximal runs of digits, left to
    right; [run] is the run being read. *)
Fixpoint findall_digits (run : string) (s : string) : list string :=
  match s with
  | EmptyString => flush run
  | String c s' =>
      if isdigit c then findall_digits (run ++ String c EmptyString) s'
      else flush run ++ findall_digits EmptyString s'
  end.

Fixpoint int_of_digits (acc : Z) (s : string) : Z :=
  match s with
  | EmptyString => acc
  | String c s' =>
      int_of_digits (10 * acc + (Z.of_nat (nat_of_ascii c) - 48))%Z s'
  end.

Section Script.

Variable int_max_str_digits : option nat.

(** [int(n)] on a run of digits. *)
Definition py_int (n : string) : outcome Z :=
  match int_max_str_digits with
  | Some limit =>
      if limit <? String.length n then Crash IntDigitsLimit
      else Done (int_of_digits 0 n)
  | None => Done (int_of_digits 0 n)
  end.

(** [[int(n) for n in numbers]] *)
Fixpoint ints (numbers : list string) : outcome (list Z) :=
  match numbers with
  | [] => Done []
  | n :: rest =>
      match py_int n with
      | Crash e => Crash e
      | Done v =>
          match ints rest with
          | Crash e => Crash e
          | Done vs => Done (v :: vs)
          end
      end
  end.

(** The test of the first loop on a stripped line. *)
Definition is_data_line (line : string) : bool :=
  negb (String.eqb line EmptyString)
  && negb (startswith line "$")
  && negb (startswith line "----").

(** The first loop: [adc_lines] after the lines of [stdin]. *)
Fixpoint read_adc_lines (stdin : list string) (adc_lines : list (list Z))
    : outcome (list (list Z)) :=
  match stdin with
  | [] => Done adc_lines
  | line :: rest =>
      let line := strip line in
      if is_data_line line then
        let numbers := findall_digits EmptyString line in
        if 8 <=? length numbers then
          match ints (firstn 8 numbers) with
          | Crash e => Crash e
          | Done row => read_adc_lines rest (adc_lines ++ [row])
          end
        else read_adc_lines rest adc_lines
      else read_adc_lines rest adc_lines
  end.

End Script.

(** The dictionary [leads_max], in the order of its keys. *)
Definition leads : Type := list (string * list Z).

Definition lead_names : list string :=
  ["I"; "II"; "III"; "aVR"; "aVL"; "aVF"; "V1"; "V2"]%string.

Definition leads_init : leads := map (fun k => (k, [])) lead_names.

(** [leads_max[key]] *)
Definition get (d : leads) (key : string) : list Z :=
  match find (fun kv => String.eqb (fst kv) key) d with
  | Some kv => snd kv
  | None => []
  end.

(** [leads_max[key].append(v)] *)
Definition append (d : leads) (key : string) (v : Z) : leads :=
  map (fun kv => if String.eqb (fst kv) key then (fst kv, snd kv ++ [v])
                 else kv) d.

(** [row[i]], within the bounds the test of the loop ensures. *)
Definition item (row : list Z) (i : nat) : Z := nth i row 0%Z.

(** The body of the second loop. *)
Definition collect_row (d : leads) (row : list Z) : leads :=
  if 8 <=? length row then
    let d := append d "I" (item row 0) in
    let d := append d "II" (item row 1) in
    let d := append d "III" (item row 2) in
    let d := append d "aVR" (item row 3) in
    let d := append d "aVL" (item row 4) in
    let d := append d "aVF" (item row 5) in
    let d := append d "V1" (item row 6) in
    let d := append d "V2" (item row 7) in
    d
  else d.

Definition collect (adc_lines : list (list Z)) : leads :=
  fold_left collect_row adc_lines leads_init.

Definition baseline : float := 2000%float.
Definition wave_gain : float := 10%float.
Definition adc_per_box : float := (7500 / wave_gain)%float.

(** What is printed. *)
Inductive printed : Type :=
| Line (s : string)
| Row (lead : string) (highest : Z) (after_baseline boxes : float)
| BaselineLine (b : float)
| WaveGainLine (g : float)
| AdcPerBoxLine (a : float)
| FormulaLine (b a : float).

Fixpoint times (c : ascii) (n : nat) : string :=
  match n with
  | 0 => EmptyString
  | S n' => String c (times c n')
  end.

(** [f"{s:<w}"] *)
Definition ljust (s : string) (w : nat) : string :=
  (s ++ times " " (w - String.length s))%string.

Definition header : list printed :=
  [ Line (times "=" 70);
    Line "HIGHEST ADC VALUES FROM SERIAL PORT DATA";
    Line (times "=" 70);
    Line "";
    Line (ljust "Lead" 8 ++ " " ++ ljust "Highest ADC" 15 ++ " "
          ++ ljust "After Baseline" 15 ++ " " ++ ljust "Boxes" 15)%string;
    Line (times "-" 70) ].

Definition footer : list printed :=
  [ Line "";
    Line (times "=" 70);
    Line "CALCULATION VERIFICATION:";
    Line (times "=" 70);
    Line "";
    BaselineLine baseline;
    WaveGainLine wave_gain;
    AdcPerBoxLine adc_per_box;
    Line "";
    Line "Formula: boxes = (highest_adc - baseline) / adc_per_box";
    FormulaLine baseline adc_per_box ].

(** [max(values)] on a list that is not empty. *)
Definition py_max (x : Z) (xs : list Z) : Z := fold_left Z.max xs x.

(** The conversion of an [int] operand of a float operation. *)
Definition float_of_int (z : Z) : outcome float :=
  match binary_normalize prec emax z 0 false with
  | S754_infinity _ => Crash IntTooLargeForFloat
  | x => Done (SF2Prim x)
  end.

(** The third loop: the rows printed for the leads [names], after [out];
    the crash, if one ends the loop. *)
Fixpoint print_rows (leads_max : leads) (names : list string)
    (out : list printed) : list printed * option crash :=
  match names with
  | [] => (out, None)
  | lead :: rest =>
      match get leads_max lead with
      | [] => print_rows leads_max rest out
      | x :: xs =>
          let highest := py_max x xs in
          match float_of_int highest with
          | Crash e => (out, Some e)
          | Done h =>
              let after_baseline := (h - baseline)%float in
              match truediv after_baseline adc_per_box with
              | Raise _ => (out, Some DivisionByZero)
              | Ok boxes =>
                  print_rows leads_max rest
                    (out ++ [Row lead highest after_baseline boxes])
              end
          end
      end
  end.

(** The script: what it prints, and the crash that ended it, if any. *)
Definition script (int_max_str_digits : option nat) (stdin : list string)
    : list printed * option crash :=
  match read_adc_lines int_max_str_digits stdin [] with
  | Crash e => ([], Some e)
  | Done adc_lines =>
      let leads_max := collect adc_lines in
      match print_rows leads_max lead_names header with
      | (out, Some e) => (out, Some e)
      | (out, None) => (out ++ footer, None)
      end
  end.

(** The column [k] of the rows. *)
Definition column (k : nat) (adc_lines : list (list Z)) : list Z :=
  map (fun row => item row k) adc_lines.

(** A line the first loop passes over. *)
Definition passed_over (line : string) : bool :=
  negb (is_data_line (strip line))
  || (length (findall_digits EmptyString (strip line)) <? 8).

(** The dictionary whose eight leads hold the given lists. *)
Definition leads_of (l0 l1 l2 l3 l4 l5 l6 l7 : list Z) : leads :=
  [("I"%string, l0); ("II"%string, l1); ("III"%string, l2);
   ("aVR"%string, l3); ("aVL"%string, l4); ("aVF"%string, l5);
   ("V1"%string, l6); ("V2"%string, l7)].

Fixpoint all_digits (s : string) : bool :=
  match s with
  | EmptyString => true
  | String c s' => isdigit c && all_digits s'
  end.

(** A row of [adc_lines]: eight values, none negative. *)
Definition well_formed_row (row : list Z) : Prop :=
  length row = 8 /\ Forall (fun v => (0 <= v)%Z) row.

(** The table row of lead number [k] for the rows [adc_lines]. *)
Definition is_row_of (adc_lines : list (list Z)) (k : nat) (line : printed)
    : Prop :=
  exists highest h,
    line = Row (nth k lead_names EmptyString) highest (h - baseline)%float
             ((h - baseline) / adc_per_box)%float
    /\ float_of_int highest = Done h
    /\ In highest (column k adc_lines)
    /\ Forall (fun v => (v <= highest)%Z) (column k adc_lines).

End AdcData.

(** ** Basic facts about the heap *)

Lemma contents_alloc_new (st : state) (xs : list float) :
  contents (mkState (heap st ++ [xs]) (stdout st)) (length (heap st)) = xs.
Proof.
  unfold contents; simpl. rewrite app_nth2 by lia.
  now rewrite Nat.sub_diag.
Qed.

Lemma state_eta (st : state) : mkState (heap st) (stdout st) = st.
Proof. now destruct st. Qed.

(** ** The stages in terms of their effect *)

Ltac run_monad :=
  unfold bind, ret, raise, lift, try_except, print, div, float_of, filtfilt;
  cbn.

Lemma apply_stage_effect (E : Externals) (g : stage) (signal : loc)
    (rate : float) (sel : selector) (st : state) :
  apply_stage E g signal rate sel st
  = commit signal (stage_effect E g rate sel (contents st signal)) st.
Proof.
  unfold stage_effect, enabled.
  destruct g; cbn;
    unfold apply_ac_filter, apply_emg_filter, apply_dft_filter,
      ac_body, emg_body, dft_body;
    (destruct sel as [s|]; cbn;
     [ destruct (String.eqb s ""); destruct (String.eqb s "off"); cbn;
       try (run_monad; rewrite app_nil_r; now rewrite state_eta)
     | run_monad; rewrite app_nil_r; now rewrite state_eta ]);
    run_monad;
    (destruct (py_float E s) as [f|e]; cbn; [|reflexivity]);
    (destruct (truediv rate 2) as [nyq|e]; cbn; [|reflexivity]);
    (destruct (truediv f nyq) as [w|e]; cbn; [|reflexivity]);
    unfold out_of_range;
    (destruct ((w <=? 0)%float || (1 <=? w)%float); cbn; [reflexivity|]).
  all: match goal with
       | |- context [iirnotch ?E ?w ?q] => destruct (iirnotch E w q) as [ba|e]
       | |- context [butter ?E ?n ?w ?b] => destruct (butter E n w b) as [ba|e]
       end; cbn; [|reflexivity].
  all: destruct (filtfilt_samples E ba (contents st signal)) as [ys|e];
    cbn; reflexivity.
Qed.

Lemma stage_run (E : Externals) (g : stage) (signal : loc) (rate : float)
    (sel : selector) (st : state) :
  let eff := stage_effect E g rate sel (contents st signal) in
  exists r st' extra,
    apply_stage E g signal rate sel st = (Ok r, st')
    /\ heap st' = heap st ++ extra
    /\ stdout st' = stdout st ++ effect_output eff
    /\ contents st' r = effect_samples (contents st signal) eff
    /\ (r = signal \/ length (heap st) <= r < length (heap st')).
Proof.
  intros eff. rewrite apply_stage_effect. fold eff.
  destruct eff as [msgs|ys]; cbn.
  - exists signal, (mkState (heap st) (stdout st ++ msgs)), [].
    rewrite app_nil_r. repeat split; auto.
  - exists (length (heap st)), (mkState (heap st ++ [ys]) (stdout st)), [ys].
    rewrite app_nil_r. repeat split; auto using contents_alloc_new.
    right. cbn. rewrite length_app. cbn. lia.
Qed.

(** A stage called on an absent selector does nothing, so guarding the
    call by [if selector:] changes nothing. *)
Lemma absent_stage (E : Externals) (g : stage) (buf : loc) (rate : float)
    (sel : selector) (st : state) :
  truthy sel = false -> apply_stage E g buf rate sel st = (Ok buf, st).
Proof.
  intros Hs. rewrite apply_stage_effect. unfold stage_effect, enabled.
  rewrite Hs. cbn. rewrite app_nil_r. now rewrite state_eta.
Qed.

Lemma guarded_stage (E : Externals) (g : stage) (buf : loc) (rate : float)
    (sel : selector) (st : state) :
  (if truthy sel then apply_stage E g buf rate sel else ret buf) st
  = apply_stage E g buf rate sel st.
Proof.
  destruct (truthy sel) eqn:Hs; [reflexivity|].
  now rewrite absent_stage.
Qed.

Lemma bind_cong {A B} (m m' : M A) (k k' : A -> M B) (st : state) :
  m st = m' st -> (forall a s, k a s = k' a s) ->
  bind m k st = bind m' k' st.
Proof.
  intros Hm Hk. unfold bind. rewrite Hm.
  destruct (m' st) as [[a|e] s']; auto.
Qed.

Lemma bind_ok {A B} (m : M A) (k : A -> M B) (st s1 : state) (a : A) :
  m st = (Ok a, s1) -> bind m k st = k a s1.
Proof.
  intros H. unfold bind. now rewrite H.
Qed.

Lemma bind_ext {A B} (m : M A) (k k' : A -> M B) (st : state) :
  (forall a s, k a s = k' a s) -> bind m k st = bind m k' st.
Proof.
  intros H. now apply bind_cong.
Qed.

(** The three guarded calls of the orchestrator are the composition of the
    three stages. *)
Lemma guarded_calls (E : Externals) (rate : float) (ac emg dft : selector)
    (buf : loc) (st : state) :
  (filtered <- (if truthy dft then apply_dft_filter E buf rate dft
                else ret buf) ;;
   filtered <- (if truthy emg then apply_emg_filter E filtered rate emg
                else ret filtered) ;;
   filtered <- (if truthy ac then apply_ac_filter E filtered rate ac
                else ret filtered) ;;
   ret filtered) st
  = compose_stages E documented_order rate (selector_of ac emg dft) buf st.
Proof.
  cbn [compose_stages documented_order selector_of].
  change (apply_dft_filter E) with (apply_stage E DFT).
  change (apply_emg_filter E) with (apply_stage E EMG).
  change (apply_ac_filter E) with (apply_stage E AC).
  apply bind_cong; [apply guarded_stage|]. intros b1 s1.
  apply bind_cong; [apply guarded_stage|]. intros b2 s2.
  apply bind_cong; [apply guarded_stage|]. reflexivity.
Qed.

Lemma apply_ecg_filters_unfold (E : Externals) (signal : pyobj)
    (rate : float) (ac emg dft : selector) (st : state) :
  apply_ecg_filters E signal rate ac emg dft st
  = (arr <- as_array signal ;;
     n <- len arr ;;
     if n <? 10 then ret arr
     else
       filtered <- copy arr ;;
       compose_stages E documented_order rate (selector_of ac emg dft)
         filtered) st.
Proof.
  unfold apply_ecg_filters. fold (as_array signal).
  apply bind_ext; intros arr s1.
  apply bind_ext; intros n s2.
  destruct (n <? 10); [reflexivity|].
  apply bind_ext; intros filtered s3.
  apply guarded_calls.
Qed.

Lemma compose_stages_run (E : Externals) (rate : float)
    (sel : stage -> selector) (gs : list stage) :
  forall (buf : loc) (st : state),
  exists r st' extra,
    compose_stages E gs rate sel buf st = (Ok r, st')
    /\ heap st' = heap st ++ extra
    /\ stdout st' = stdout st ++ stages_output E gs rate sel (contents st buf)
    /\ contents st' r = stages_samples E gs rate sel (contents st buf)
    /\ (r = buf \/ length (heap st) <= r < length (heap st')).
Proof.
  induction gs as [|g gs IH]; intros buf st; cbn [compose_stages].
  - exists buf, st, []. cbn. rewrite !app_nil_r. repeat split; auto.
  - destruct (stage_run E g buf rate (sel g) st)
      as (r1 & s1 & ex1 & Hrun & Hheap & Hout & Hcont & Hloc).
    destruct (IH r1 s1) as (r & s2 & ex2 & Hrun2 & Hheap2 & Hout2 & Hcont2 & Hloc2).
    assert (Hle1 : length (heap st) <= length (heap s1))
      by (rewrite Hheap, length_app; lia).
    assert (Hle2 : length (heap s1) <= length (heap s2))
      by (rewrite Hheap2, length_app; lia).
    assert (Hloc' : r = buf \/ length (heap st) <= r < length (heap s2)).
    { destruct Hloc2 as [->|]; [destruct Hloc; auto|]; right; lia. }
    exists r, s2, (ex1 ++ ex2).
    unfold bind. rewrite Hrun, Hrun2. cbn [stages_output stages_samples].
    split; [reflexivity|]. split; [now rewrite Hheap2, Hheap, app_assoc|].
    split; [now rewrite Hout2, Hout, Hcont, app_assoc|].
    split; [now rewrite Hcont2, Hcont|exact Hloc'].
Qed.

(** What a call of the orchestrator does, in one statement: it returns an
    array; the heap only grows; the returned samples and the printed lines
    are functions of the input samples; a short array comes back as it
    is, in every other case the returned array is a new object. *)
Lemma pipeline_run (E : Externals) (signal : pyobj) (rate : float)
    (ac emg dft : selector) (st : state) :
  let xs := samples st signal in
  exists r st' extra,
    apply_ecg_filters E signal rate ac emg dft st = (Ok r, st')
    /\ heap st' = heap st ++ extra
    /\ stdout st' = stdout st ++ pipeline_output E rate ac emg dft xs
    /\ contents st' r = pipeline_samples E rate ac emg dft xs
    /\ match signal with
       | NdArray l =>
           if length xs <? 10 then r = l /\ st' = st
           else length (heap st) <= r < length (heap st')
       | PyList _ => length (heap st) <= r < length (heap st')
       end.
Proof.
  intros xs. rewrite apply_ecg_filters_unfold.
  unfold pipeline_output, pipeline_samples.
  destruct signal as [l|ys]; cbn [as_array samples] in *.
  - unfold bind at 1, ret at 1. unfold bind at 1, len at 1.
    fold xs. destruct (length xs <? 10) eqn:Hlen.
    + exists l, st, []. unfold ret. rewrite !app_nil_r. repeat split; auto.
    + unfold bind, copy, alloc. fold xs.
      set (s1 := mkState (heap st ++ [xs]) (stdout st)).
      destruct (compose_stages_run E rate (selector_of ac emg dft)
                  documented_order (length (heap st)) s1)
        as (r & s2 & ex & Hrun & Hheap & Hout & Hcont & Hloc).
      unfold s1 in Hout, Hcont, Hloc, Hheap.
      rewrite contents_alloc_new in Hout, Hcont. cbn in Hout, Hheap, Hloc.
      exists r, s2, ([xs] ++ ex). rewrite Hrun.
      split; [reflexivity|]. split; [now rewrite Hheap, app_assoc|].
      split; [exact Hout|]. split; [exact Hcont|].
      assert (length (heap s2) = length (heap st) + 1 + length ex)
        by (rewrite Hheap, !length_app; cbn; lia).
      rewrite length_app in Hloc. cbn in Hloc. lia.
  - unfold bind at 1, np_array, alloc. unfold bind at 1, len at 1.
    set (s0 := mkState (heap st ++ [ys]) (stdout st)).
    assert (Hc0 : contents s0 (length (heap st)) = ys)
      by apply contents_alloc_new.
    rewrite Hc0. subst xs. destruct (length ys <? 10) eqn:Hlen.
    + exists (length (heap st)), s0, [ys]. unfold ret, s0. cbn.
      rewrite app_nil_r. repeat split; auto.
      rewrite length_app. cbn. lia.
    + unfold bind, copy, alloc. rewrite Hc0.
      set (s1 := mkState (heap s0 ++ [ys]) (stdout s0)).
      destruct (compose_stages_run E rate (selector_of ac emg dft)
                  documented_order (length (heap s0)) s1)
        as (r & s2 & ex & Hrun & Hheap & Hout & Hcont & Hloc).
      unfold s1 in Hout, Hcont, Hloc, Hheap.
      rewrite contents_alloc_new in Hout, Hcont.
      unfold s0 in Hout, Hheap, Hloc. cbn in Hout, Hheap, Hloc.
      exists r, s2, ([ys; ys] ++ ex).
      fold s1. rewrite Hrun.
      split; [reflexivity|].
      split; [rewrite Hheap; cbn; now rewrite <- !app_assoc|].
      split; [exact Hout|]. split; [exact Hcont|].
      assert (length (heap s2) = length (heap st) + 2 + length ex)
        by (rewrite Hheap, !length_app; cbn; lia).
      rewrite !length_app in Hloc. cbn in Hloc. lia.
Qed.

Lemma compose_present_only (E : Externals) (rate : float)
    (sel : stage -> selector) (gs : list stage) :
  forall (buf : loc) (st : state),
    compose_stages E (filter (fun g => truthy (sel g)) gs) rate sel buf st
    = compose_stages E gs rate sel buf st.
Proof.
  induction gs as [|g gs IH]; intros buf st; [reflexivity|].
  cbn [filter compose_stages]. destruct (truthy (sel g)) eqn:Hg.
  - cbn [compose_stages]. apply bind_ext. intros; apply IH.
  - unfold bind. rewrite absent_stage by assumption. apply IH.
Qed.

(** After [as_array], the array holds the samples of the input. *)
Lemma as_array_samples (signal : pyobj) (st : state) :
  exists arr s1,
    as_array signal st = (Ok arr, s1)
    /\ contents s1 arr = samples st signal.
Proof.
  destruct signal as [l|xs]; cbn.
  - exists l, st. auto.
  - eexists _, _. split; [reflexivity|]. apply contents_alloc_new.
Qed.

(** ** The claims *)

(** C1. On a buffer of at least 10 samples, [apply_ecg_filters] is the
    composition of the sub-filters in the fixed order DFT, EMG, AC, on a
    copy of the input: a stage whose selector is absent ([None] or the
    empty string) is skipped, the others receive the running buffer
    ([pipeline_spec]); and, a stage being the identity on an absent
    selector, it is also the composition of all three stages. *)
Theorem apply_ecg_filters_is_ordered_composition (E : Externals)
    (signal : pyobj) (rate : float) (ac emg dft : selector) (st : state) :
  10 <= length (samples st signal) ->
  apply_ecg_filters E signal rate ac emg dft st
  = pipeline_spec E signal rate ac emg dft st
  /\ apply_ecg_filters E signal rate ac emg dft st
     = (arr <- as_array signal ;;
        filtered <- copy arr ;;
        filtered <- apply_dft_filter E filtered rate dft ;;
        filtered <- apply_emg_filter E filtered rate emg ;;
        filtered <- apply_ac_filter E filtered rate ac ;;
        ret filtered) st.
Proof.
  intros Hlen.
  assert (Hmain : apply_ecg_filters E signal rate ac emg dft st
            = (arr <- as_array signal ;;
               filtered <- copy arr ;;
               compose_stages E documented_order rate
                 (selector_of ac emg dft) filtered) st).
  { rewrite apply_ecg_filters_unfold.
    destruct (as_array_samples signal st) as (arr & s1 & Harr & Hc).
    rewrite !(@bind_ok _ _ _ _ _ _ _ Harr).
    unfold bind at 1, len. rewrite Hc.
    destruct (length (samples st signal) <? 10) eqn:Hlt; [|reflexivity].
    apply Nat.ltb_lt in Hlt. lia. }
  split; rewrite Hmain.
  - unfold pipeline_spec. fold (as_array signal).
    apply bind_ext; intros arr s1. apply bind_ext; intros buf s2.
    symmetry. apply compose_present_only.
  - reflexivity.
Qed.

Lemma apply_ecg_filters_is_ordered_composition_witness :
  let st := Ref.empty in
  let signal := PyList (Ref.ramp 20) in
  10 <= length (samples st signal)
  /\ apply_ecg_filters Ref.externals signal 500 (Some "50"%string) None
       (Some "0.5"%string) st
     = pipeline_spec Ref.externals signal 500 (Some "50"%string) None
         (Some "0.5"%string) st.
Proof.
  split; [vm_compute; lia|].
  apply (apply_ecg_filters_is_ordered_composition Ref.externals
           (PyList (Ref.ramp 20)) 500 (Some "50"%string) None
           (Some "0.5"%string) Ref.empty).
  vm_compute; lia.
Defined.

(** C2. On a buffer of fewer than 10 samples, [apply_ecg_filters] returns
    the input unchanged, whatever the sampling rate and the selectors: the
    returned array holds the samples of the input, nothing is printed, and
    an array input comes back as the very same object in an untouched
    state. *)
Theorem short_signal_returned_unchanged (E : Externals) (signal : pyobj)
    (rate : float) (ac emg dft : selector) (st : state) :
  length (samples st signal) < 10 ->
  exists r st',
    apply_ecg_filters E signal rate ac emg dft st = (Ok r, st')
    /\ contents st' r = samples st signal
    /\ stdout st' = stdout st
    /\ (forall l, signal = NdArray l -> r = l /\ st' = st).
Proof.
  intros Hlen. apply Nat.ltb_lt in Hlen.
  destruct (pipeline_run E signal rate ac emg dft st)
    as (r & st' & ex & Hrun & _ & Hout & Hcont & Hobj).
  unfold pipeline_output, pipeline_samples in *.
  rewrite Hlen in *. rewrite app_nil_r in Hout.
  exists r, st'. split; [exact Hrun|]. split; [exact Hcont|].
  split; [exact Hout|]. intros l ->. exact Hobj.
Qed.

Lemma short_signal_returned_unchanged_witness :
  exists r st',
    apply_ecg_filters Ref.externals (PyList (Ref.ramp 9)) 500
      (Some "50"%string) (Some "150"%string) (Some "0.5"%string) Ref.empty
    = (Ok r, st')
    /\ contents st' r = Ref.ramp 9
    /\ stdout st' = []
    /\ (forall l, PyList (Ref.ramp 9) = NdArray l -> r = l /\ st' = Ref.empty).
Proof.
  apply (short_signal_returned_unchanged Ref.externals
           (PyList (Ref.ramp 9)) 500 (Some "50"%string) (Some "150"%string)
           (Some "0.5"%string) Ref.empty).
  vm_compute; lia.
Defined.

Lemma disabled_effect (E : Externals) (g : stage) (rate : float)
    (sel : selector) (xs : list float) :
  enabled sel = false -> stage_effect E g rate sel xs = Keep [].
Proof.
  intros H. unfold stage_effect. now rewrite H.
Qed.

Lemma disabled_stage (E : Externals) (g : stage) (buf : loc) (rate : float)
    (sel : selector) (st : state) :
  enabled sel = false -> apply_stage E g buf rate sel st = (Ok buf, st).
Proof.
  intros H. rewrite apply_stage_effect, disabled_effect by assumption.
  cbn. rewrite app_nil_r. now rewrite state_eta.
Qed.

Lemma off_or_absent_disabled (sel : selector) :
  sel = Some "off"%string \/ truthy sel = false -> enabled sel = false.
Proof.
  unfold enabled. intros [-> | ->]; reflexivity.
Qed.

(** C3. With the three selectors ["off"], [apply_ecg_filters] returns a
    buffer holding the samples of its input, for every input and sampling
    rate, and prints nothing; and each sub-filter returns its input (the
    same object, in an untouched state) when its selector is ["off"] or
    absent. *)
Theorem off_selectors_are_identity (E : Externals) (signal : pyobj)
    (rate : float) (st : state) (buf : loc) (sel : selector) :
  (exists r st',
     apply_ecg_filters E signal rate (Some "off"%string)
       (Some "off"%string) (Some "off"%string) st = (Ok r, st')
     /\ contents st' r = samples st signal
     /\ stdout st' = stdout st)
  /\ (sel = Some "off"%string \/ truthy sel = false ->
      apply_ac_filter E buf rate sel st = (Ok buf, st)
      /\ apply_emg_filter E buf rate sel st = (Ok buf, st)
      /\ apply_dft_filter E buf rate sel st = (Ok buf, st)).
Proof.
  split.
  - destruct (pipeline_run E signal rate (Some "off"%string)
                (Some "off"%string) (Some "off"%string) st)
      as (r & st' & ex & Hrun & _ & Hout & Hcont & _).
    exists r, st'. split; [exact Hrun|].
    unfold pipeline_output, pipeline_samples in *.
    destruct (length (samples st signal) <? 10).
    + rewrite app_nil_r in Hout. auto.
    + cbn in Hout, Hcont. rewrite app_nil_r in Hout. auto.
  - intros Hsel. apply off_or_absent_disabled in Hsel.
    repeat split.
    + apply (disabled_stage E AC); assumption.
    + apply (disabled_stage E EMG); assumption.
    + apply (disabled_stage E DFT); assumption.
Qed.

Lemma off_selectors_are_identity_witness :
  let st := mkState [Ref.ramp 12] [] in
  (Some "off"%string = Some "off"%string \/ truthy (Some "off"%string) = false)
  /\ apply_ac_filter Ref.externals 0 500 (Some "off"%string) st = (Ok 0, st)
  /\ apply_emg_filter Ref.externals 0 500 (Some "off"%string) st = (Ok 0, st)
  /\ apply_dft_filter Ref.externals 0 500 (Some "off"%string) st = (Ok 0, st).
Proof.
  split; [left; reflexivity|].
  apply (off_selectors_are_identity Ref.externals (NdArray 0) 500
           (mkState [Ref.ramp 12] []) 0 (Some "off"%string)).
  left; reflexivity.
Defined.

Lemma truediv_two (rate : float) : truediv rate 2 = Ok (rate / 2)%float.
Proof. reflexivity. Qed.

(** C4. In each of the three stages, when the requested frequency divided
    by the Nyquist frequency [sampling_rate / 2] is [<= 0] or [>= 1], the
    stage returns its input buffer (the same object, the heap untouched),
    prints one diagnostic naming the stage, the frequency and the rate,
    and raises nothing. *)
Theorem out_of_range_frequency_skips_stage (E : Externals) (g : stage)
    (signal : loc) (rate : float) (s : string) (f : float) (st : state) :
  enabled (Some s) = true ->
  py_float E s = Ok f ->
  (rate / 2 =? 0)%float = false ->
  out_of_range (f / (rate / 2)) = true ->
  apply_stage E g signal rate (Some s) st
  = (Ok signal,
     mkState (heap st) (stdout st ++ [InvalidFrequency g f rate])).
Proof.
  intros Hen Hf Hnyq Hw. rewrite apply_stage_effect.
  unfold stage_effect. rewrite Hen, Hf, truediv_two.
  unfold truediv at 1. rewrite Hnyq, Hw. reflexivity.
Qed.

Lemma out_of_range_frequency_skips_stage_witness :
  let st := mkState [Ref.ramp 12] [] in
  apply_ac_filter Ref.externals 0 100 (Some "60"%string) st
  = (Ok 0, mkState (heap st) [InvalidFrequency AC 60 100])
  /\ apply_emg_filter Ref.externals 0 100 (Some "60"%string) st
     = (Ok 0, mkState (heap st) [InvalidFrequency EMG 60 100])
  /\ apply_dft_filter Ref.externals 0 100 (Some "60"%string) st
     = (Ok 0, mkState (heap st) [InvalidFrequency DFT 60 100]).
Proof.
  intros st. split; [|split].
  - apply (out_of_range_frequency_skips_stage Ref.externals AC 0 100
             "60"%string 60%float st); reflexivity.
  - apply (out_of_range_frequency_skips_stage Ref.externals EMG 0 100
             "60"%string 60%float st); reflexivity.
  - apply (out_of_range_frequency_skips_stage Ref.externals DFT 0 100
             "60"%string 60%float st); reflexivity.
Defined.

(** An enabled stage is its [try] block under its [except] handler. *)
Lemma enabled_stage_try (E : Externals) (g : stage) (signal : loc)
    (rate : float) (sel : selector) (st : state) :
  enabled sel = true ->
  apply_stage E g signal rate sel st
  = try_except (stage_body E g signal rate sel)
      (fun e => print (FilterError g sel e) ;;; ret signal) st.
Proof.
  unfold enabled. intros H. apply andb_prop in H as [Ht Hoff].
  apply negb_true_iff in Hoff.
  destruct g; cbn [apply_stage stage_body];
    unfold apply_ac_filter, apply_emg_filter, apply_dft_filter;
    rewrite Ht, Hoff; reflexivity.
Qed.

(** A [try] block that raises has not touched the state. *)
Lemma stage_body_raise (E : Externals) (g : stage) (signal : loc)
    (rate : float) (sel : selector) (st st1 : state) (e : exn) :
  stage_body E g signal rate sel st = (Raise e, st1) -> st1 = st.
Proof.
  destruct g; cbn [stage_body]; unfold ac_body, emg_body, dft_body;
    run_monad;
    (destruct sel as [s|]; cbn; [|now intros [= _ <-]]);
    (destruct (py_float E s) as [f|e0]; cbn; [|now intros [= _ <-]]);
    (destruct (truediv rate 2) as [nyq|e0]; cbn; [|now intros [= _ <-]]);
    (destruct (truediv f nyq) as [w|e0]; cbn; [|now intros [= _ <-]]);
    (destruct ((w <=? 0)%float || (1 <=? w)%float); cbn; [discriminate|]).
  all: match goal with
       | |- context [iirnotch ?E ?w ?q] => destruct (iirnotch E w q) as [ba|e0]
       | |- context [butter ?E ?n ?w ?b] => destruct (butter E n w b) as [ba|e0]
       end; cbn; [|now intros [= _ <-]].
  all: destruct (filtfilt_samples E ba (contents st signal)) as [ys|e0];
    cbn; [discriminate|now intros [= _ <-]].
Qed.

Lemma unparsable_body_raises (E : Externals) (g : stage) (signal : loc)
    (rate : float) (s : string) (e : exn) (st : state) :
  py_float E s = Raise e ->
  stage_body E g signal rate (Some s) st = (Raise e, st).
Proof.
  intros H.
  destruct g; cbn [stage_body]; unfold ac_body, emg_body, dft_body;
    run_monad; rewrite H; reflexivity.
Qed.

(** C5. Every exception raised inside the [try] block of a stage (filter
    construction or application, a selector [float()] rejects, a division
    by zero) is caught in that stage: the stage never raises; when its
    block raises [e] the stage returns its input buffer, with the heap
    untouched and one line printed; a selector that does not parse as
    a float is such a case; and no call of [apply_ecg_filters] raises. *)
Theorem stage_exceptions_are_contained (E : Externals) (g : stage)
    (signal : loc) (rate : float) (sel : selector) (st : state) :
  (exists r st', apply_stage E g signal rate sel st = (Ok r, st'))
  /\ (forall e st1,
        enabled sel = true ->
        stage_body E g signal rate sel st = (Raise e, st1) ->
        apply_stage E g signal rate sel st
        = (Ok signal,
           mkState (heap st) (stdout st ++ [FilterError g sel e])))
  /\ (forall s e,
        sel = Some s ->
        enabled sel = true ->
        py_float E s = Raise e ->
        apply_stage E g signal rate sel st
        = (Ok signal,
           mkState (heap st) (stdout st ++ [FilterError g sel e])))
  /\ (forall input ac emg dft,
        exists r st',
          apply_ecg_filters E input rate ac emg dft st = (Ok r, st')).
Proof.
  assert (Hraise : forall e st1,
            enabled sel = true ->
            stage_body E g signal rate sel st = (Raise e, st1) ->
            apply_stage E g signal rate sel st
            = (Ok signal,
               mkState (heap st) (stdout st ++ [FilterError g sel e]))).
  { intros e st1 Hen Hbody. rewrite enabled_stage_try by assumption.
    pose proof (stage_body_raise _ _ _ _ _ _ _ _ Hbody) as ->.
    unfold try_except. rewrite Hbody. reflexivity. }
  split; [|split; [exact Hraise|split]].
  - destruct (stage_run E g signal rate sel st) as (r & st' & _ & Hrun & _).
    now exists r, st'.
  - intros s e -> Hen Hparse. apply (Hraise e st Hen).
    now apply unparsable_body_raises.
  - intros input ac emg dft.
    destruct (pipeline_run E input rate ac emg dft st)
      as (r & st' & _ & Hrun & _).
    now exists r, st'.
Qed.

Lemma stage_exceptions_are_contained_witness :
  let st := mkState [Ref.ramp 12] [] in
  apply_emg_filter Ref.externals 0 500 (Some "fast"%string) st
  = (Ok 0,
     mkState (heap st) [FilterError EMG (Some "fast"%string) ValueError]).
Proof.
  intros st.
  apply (stage_exceptions_are_contained Ref.externals EMG 0 500
           (Some "fast"%string) st) with (s := "fast"%string);
    reflexivity.
Defined.

Lemma stage_effect_length (E : Externals) (g : stage) (rate : float)
    (sel : selector) (xs : list float) :
  filtfilt_keeps_length E ->
  length (effect_samples xs (stage_effect E g rate sel xs)) = length xs.
Proof.
  intros HE. unfold stage_effect.
  destruct (enabled sel); [|reflexivity].
  destruct sel as [s|]; [|reflexivity].
  destruct (py_float E s) as [f|]; [|reflexivity].
  destruct (truediv rate 2) as [nyq|]; [|reflexivity].
  destruct (truediv f nyq) as [w|]; [|reflexivity].
  destruct (out_of_range w); [reflexivity|].
  destruct (design E g w) as [ba|]; [|reflexivity].
  destruct (filtfilt_samples E ba xs) as [ys|] eqn:Hys; [|reflexivity].
  cbn. now apply HE in Hys.
Qed.

Lemma stages_samples_length (E : Externals) (rate : float)
    (sel : stage -> selector) (gs : list stage) :
  filtfilt_keeps_length E ->
  forall xs, length (stages_samples E gs rate sel xs) = length xs.
Proof.
  intros HE. induction gs as [|g gs IH]; intros xs; cbn; [reflexivity|].
  rewrite IH. now apply stage_effect_length.
Qed.

Lemma lfilter_from_length (b a' : list float) (a0 : float) (xs : list float) :
  forall xh yh, length (Ref.lfilter_from b a' a0 xh yh xs) = length xs.
Proof.
  induction xs as [|x xs IH]; intros xh yh; cbn; [reflexivity|].
  now rewrite IH.
Qed.

Lemma lfilter_length (ba : coeffs) (xs ys : list float) :
  Ref.lfilter ba xs = Ok ys -> length ys = length xs.
Proof.
  unfold Ref.lfilter. destruct (snd ba) as [|a0 a']; [discriminate|].
  intros [= <-]. apply lfilter_from_length.
Qed.

Lemma ref_filtfilt_keeps_length : filtfilt_keeps_length Ref.externals.
Proof.
  intros ba xs ys. cbn. unfold Ref.filtfilt_samples.
  destruct (length xs <=? _); [discriminate|].
  destruct (Ref.lfilter ba xs) as [fwd|] eqn:Hf; [|discriminate].
  destruct (Ref.lfilter ba (rev fwd)) as [bwd|] eqn:Hb; [|discriminate].
  intros [= <-]. apply lfilter_length in Hf, Hb.
  now rewrite length_rev, Hb, length_rev, Hf.
Qed.

(** C6. The buffer [apply_ecg_filters] returns has the length of its
    input, for every input, sampling rate and selectors, [filtfilt]
    returning an output of the shape of its input. *)
Theorem output_length_is_input_length (E : Externals) (signal : pyobj)
    (rate : float) (ac emg dft : selector) (st : state) :
  filtfilt_keeps_length E ->
  exists r st',
    apply_ecg_filters E signal rate ac emg dft st = (Ok r, st')
    /\ length (contents st' r) = length (samples st signal).
Proof.
  intros HE.
  destruct (pipeline_run E signal rate ac emg dft st)
    as (r & st' & _ & Hrun & _ & _ & Hcont & _).
  exists r, st'. split; [exact Hrun|]. rewrite Hcont.
  unfold pipeline_samples.
  destruct (length (samples st signal) <? 10); [reflexivity|].
  now apply stages_samples_length.
Qed.

Lemma output_length_is_input_length_witness :
  exists r st',
    apply_ecg_filters Ref.externals (PyList (Ref.ramp 20)) 500
      (Some "50"%string) (Some "150"%string) (Some "0.5"%string) Ref.empty
    = (Ok r, st')
    /\ length (contents st' r) = 20.
Proof.
  apply (output_length_is_input_length Ref.externals (PyList (Ref.ramp 20))
           500 (Some "50"%string) (Some "150"%string) (Some "0.5"%string)
           Ref.empty ref_filtfilt_keeps_length).
Defined.


Lemma allocated_of_samples (st : state) (l : loc) :
  contents st l <> [] -> allocated st l.
Proof.
  unfold contents, allocated. intros H.
  destruct (Nat.lt_ge_cases l (length (heap st))) as [|Hge]; [assumption|].
  now rewrite nth_overflow in H.
Qed.

(** C7, as the code has it. A call of [apply_ecg_filters] never changes
    an existing array: the heap after the call is the heap before it with
    new arrays added, so every array allocated before the call, the
    caller's input among them, holds its samples of before.  The returned
    array is a new object when the input is a list or holds at least 10
    samples; an array input of fewer than 10 samples is returned itself. *)
Theorem input_not_mutated (E : Externals) (signal : pyobj) (rate : float)
    (ac emg dft : selector) (st : state) :
  exists r st' extra,
    apply_ecg_filters E signal rate ac emg dft st = (Ok r, st')
    /\ heap st' = heap st ++ extra
    /\ (forall l, allocated st l -> contents st' l = contents st l)
    /\ match signal with
       | NdArray l =>
           if length (contents st l) <? 10 then r = l
           else r <> l /\ ~ allocated st r /\ allocated st' r
       | PyList _ => ~ allocated st r /\ allocated st' r
       end.
Proof.
  destruct (pipeline_run E signal rate ac emg dft st)
    as (r & st' & ex & Hrun & Hheap & Hout & Hcont & Hobj).
  exists r, st', ex. split; [exact Hrun|]. split; [exact Hheap|].
  split.
  { intros l Hl. unfold contents. rewrite Hheap. now apply app_nth1. }
  unfold allocated. destruct signal as [l|xs]; cbn [samples] in Hobj.
  - destruct (length (contents st l) <? 10) eqn:Hlt; [tauto|].
    assert (Hl : allocated st l).
    { apply allocated_of_samples. intros Hnil. now rewrite Hnil in Hlt. }
    unfold allocated in Hl. lia.
  - lia.
Qed.

(** C7, as stated, fails: an array of three samples comes back as the
    same object, location 0, not as a new one. *)
Lemma short_array_is_returned_itself :
  apply_ecg_filters Ref.externals (NdArray 0) 500 (Some "50"%string)
    (Some "150"%string) (Some "0.5"%string) (mkState [Ref.ramp 3] [])
  = (Ok 0, mkState [Ref.ramp 3] []).
Proof. reflexivity. Qed.

(** C8. [apply_ecg_filters] is deterministic: two calls on inputs holding
    the same samples, with the same sampling rate and selectors, return
    buffers holding the same samples and print the same lines, whatever
    the states they start from and whether the input is a list or an
    array. *)
Theorem apply_ecg_filters_deterministic (E : Externals)
    (signal1 signal2 : pyobj) (rate : float) (ac emg dft : selector)
    (st1 st2 : state) :
  samples st1 signal1 = samples st2 signal2 ->
  exists r1 st1' r2 st2' printed,
    apply_ecg_filters E signal1 rate ac emg dft st1 = (Ok r1, st1')
    /\ apply_ecg_filters E signal2 rate ac emg dft st2 = (Ok r2, st2')
    /\ contents st1' r1 = contents st2' r2
    /\ stdout st1' = stdout st1 ++ printed
    /\ stdout st2' = stdout st2 ++ printed.
Proof.
  intros Heq.
  destruct (pipeline_run E signal1 rate ac emg dft st1)
    as (r1 & st1' & _ & Hrun1 & _ & Hout1 & Hcont1 & _).
  destruct (pipeline_run E signal2 rate ac emg dft st2)
    as (r2 & st2' & _ & Hrun2 & _ & Hout2 & Hcont2 & _).
  exists r1, st1', r2, st2',
    (pipeline_output E rate ac emg dft (samples st2 signal2)).
  rewrite Heq in Hout1, Hcont1.
  repeat (split; [assumption|]); try assumption.
  now rewrite Hcont1, Hcont2.
Qed.

Lemma apply_ecg_filters_deterministic_witness :
  let st1 := Ref.empty in
  let st2 := mkState [Ref.ramp 3; Ref.ramp 20]
               [InvalidFrequency AC 60 100] in
  exists r1 st1' r2 st2' printed,
    apply_ecg_filters Ref.externals (PyList (Ref.ramp 20)) 100
      (Some "60"%string) (Some "25"%string) (Some "0.5"%string) st1
    = (Ok r1, st1')
    /\ apply_ecg_filters Ref.externals (NdArray 1) 100
         (Some "60"%string) (Some "25"%string) (Some "0.5"%string) st2
       = (Ok r2, st2')
    /\ contents st1' r1 = contents st2' r2
    /\ stdout st1' = stdout st1 ++ printed
    /\ stdout st2' = stdout st2 ++ printed.
Proof.
  intros st1 st2.
  apply (apply_ecg_filters_deterministic Ref.externals
           (PyList (Ref.ramp 20)) (NdArray 1) 100 (Some "60"%string)
           (Some "25"%string) (Some "0.5"%string) st1 st2).
  reflexivity.
Defined.

Lemma in_range_stage (E : Externals) (g : stage) (signal : loc)
    (rate : float) (s : string) (f : float) (ba : coeffs)
    (ys : list float) (st : state) :
  enabled (Some s) = true ->
  py_float E s = Ok f ->
  (rate / 2 =? 0)%float = false ->
  out_of_range (f / (rate / 2)) = false ->
  design E g (f / (rate / 2)) = Ok ba ->
  filtfilt_samples E ba (contents st signal) = Ok ys ->
  apply_stage E g signal rate (Some s) st
  = (Ok (length (heap st)), mkState (heap st ++ [ys]) (stdout st)).
Proof.
  intros Hen Hf Hnyq Hw Hba Hys. rewrite apply_stage_effect.
  unfold stage_effect. rewrite Hen, Hf, truediv_two.
  unfold truediv at 1. rewrite Hnyq, Hw, Hba, Hys. reflexivity.
Qed.

(** C9. When the selector is a frequency the range test accepts, the EMG
    stage designs [butter(4, normalized_cutoff, btype='high')] and the DFT
    stage [butter(2, normalized_cutoff, btype='high')], the normalized
    cutoff being the frequency over [sampling_rate / 2], and each returns
    what [filtfilt] (forward-backward, zero-phase) makes of its input with
    those coefficients, as a new array. *)
Theorem butterworth_orders_and_zero_phase (E : Externals) (signal : loc)
    (rate : float) (s : string) (f : float) (st : state) :
  enabled (Some s) = true ->
  py_float E s = Ok f ->
  (rate / 2 =? 0)%float = false ->
  out_of_range (f / (rate / 2)) = false ->
  let normalized_cutoff := (f / (rate / 2))%float in
  (forall ba ys,
     butter E 4 normalized_cutoff highpass = Ok ba ->
     filtfilt_samples E ba (contents st signal) = Ok ys ->
     apply_emg_filter E signal rate (Some s) st
     = (Ok (length (heap st)), mkState (heap st ++ [ys]) (stdout st)))
  /\ (forall ba ys,
        butter E 2 normalized_cutoff highpass = Ok ba ->
        filtfilt_samples E ba (contents st signal) = Ok ys ->
        apply_dft_filter E signal rate (Some s) st
        = (Ok (length (heap st)), mkState (heap st ++ [ys]) (stdout st))).
Proof.
  intros Hen Hf Hnyq Hw w. split; intros ba ys Hba Hys.
  - now apply (in_range_stage E EMG signal rate s) with (f := f) (ba := ba).
  - now apply (in_range_stage E DFT signal rate s) with (f := f) (ba := ba).
Qed.

Lemma butterworth_orders_and_zero_phase_witness :
  let st := mkState [Ref.ramp 20] [] in
  exists ys4 ys2,
    Ref.filtfilt_samples (Ref.difference 4, [1%float]) (Ref.ramp 20) = Ok ys4
    /\ Ref.filtfilt_samples (Ref.difference 2, [1%float]) (Ref.ramp 20)
       = Ok ys2
    /\ apply_emg_filter Ref.externals 0 500 (Some "25"%string) st
       = (Ok 1, mkState [Ref.ramp 20; ys4] [])
    /\ apply_dft_filter Ref.externals 0 500 (Some "25"%string) st
       = (Ok 1, mkState [Ref.ramp 20; ys2] []).
Proof.
  intros st.
  pose proof (butterworth_orders_and_zero_phase Ref.externals 0 500
                "25"%string 25%float st eq_refl eq_refl eq_refl eq_refl)
    as [Hemg Hdft].
  eexists. eexists.
  split; [reflexivity|]. split; [reflexivity|]. split.
  - apply (Hemg (Ref.difference 4, [1%float])); reflexivity.
  - apply (Hdft (Ref.difference 2, [1%float])); reflexivity.
Defined.

(** ** Signs of binary64 quotients *)

Lemma shr_1_nonneg (mrs : shr_record) :
  (0 <= shr_m mrs)%Z -> (0 <= shr_m (shr_1 mrs))%Z.
Proof.
  destruct mrs as [m r s]. cbn. destruct m as [|[p|p|]|p]; cbn; lia.
Qed.

Lemma iter_shr_1_nonneg (p : positive) :
  forall mrs, (0 <= shr_m mrs)%Z -> (0 <= shr_m (iter_pos shr_1 p mrs))%Z.
Proof.
  induction p as [p IH|p IH|]; intros mrs H; cbn.
  - apply IH, IH, shr_1_nonneg, H.
  - apply IH, IH, H.
  - apply shr_1_nonneg, H.
Qed.

Lemma shr_nonneg (mrs : shr_record) (e n : Z) :
  (0 <= shr_m mrs)%Z -> (0 <= shr_m (fst (shr mrs e n)))%Z.
Proof.
  intros H. unfold shr. destruct n; cbn; auto using iter_shr_1_nonneg.
Qed.

Lemma shr_record_of_loc_m (m : Z) (l : location) :
  shr_m (shr_record_of_loc m l) = m.
Proof. destruct l as [|[]]; reflexivity. Qed.

Lemma shr_fexp_nonneg (m e : Z) (l : location) :
  (0 <= m)%Z -> (0 <= shr_m (fst (shr_fexp prec emax m e l)))%Z.
Proof.
  intros H. unfold shr_fexp. apply shr_nonneg.
  now rewrite shr_record_of_loc_m.
Qed.

Lemma round_nearest_even_nonneg (m : Z) (l : location) :
  (0 <= m)%Z -> (0 <= round_nearest_even m l)%Z.
Proof.
  intros H. destruct l as [|[]]; cbn; try lia. destruct (Z.even m); lia.
Qed.

(** Rounding a non-negative mantissa gives a zero, a finite number or an
    infinity of the sign asked for, never a NaN. *)
Lemma binary_round_aux_signed (s : bool) (m e : Z) (l : location) :
  (0 <= m)%Z -> signed s (binary_round_aux prec emax s m e l).
Proof.
  intros H. unfold binary_round_aux.
  pose proof (shr_fexp_nonneg m e l H) as H1.
  destruct (shr_fexp prec emax m e l) as [mrs' e']. cbn in H1.
  pose proof (shr_fexp_nonneg _ e' loc_Exact
                (round_nearest_even_nonneg _ (loc_of_shr_record mrs') H1))
    as H2.
  destruct (shr_fexp prec emax _ e' loc_Exact) as [mrs'' e'']. cbn in H2.
  destruct (shr_m mrs'') as [|p|p];
    [ reflexivity
    | destruct (e'' <=? emax - prec)%Z; reflexivity
    | lia ].
Qed.

Lemma SFdiv_finite_signed (sx : bool) (mx : positive) (ex : Z) (sy : bool)
    (my : positive) (ey : Z) :
  signed (xorb sx sy)
    (SF64div (S754_finite sx mx ex) (S754_finite sy my ey)).
Proof.
  unfold SF64div. cbn. unfold SFdiv_core_binary.
  set (m' := match _ with Z0 => _ | _ => _ end).
  assert (0 <= m')%Z.
  { subst m'. destruct (_ - _ - _)%Z; try lia. apply Z.shiftl_nonneg. lia. }
  pose proof (Z_div_mod m' (Z.pos my) ltac:(lia)).
  destruct (Z.div_eucl m' (Z.pos my)) as [q r].
  apply binary_round_aux_signed. nia.
Qed.

Lemma signed_true_nonpositive (x : spec_float) :
  signed true x -> SFleb x (S754_zero false) = true.
Proof.
  destruct x as [s|s| |s m e]; cbn; try tauto; intros ->; reflexivity.
Qed.

(** At a rate [<= 0], the Nyquist frequency [rate / 2] is zero or the
    quotient of a finite non-negative frequency by it is [<= 0]. *)
Lemma nonpositive_rate_normalized (f rate : float) :
  (0 <=? f)%float = true ->
  (f <? infinity)%float = true ->
  (rate <=? 0)%float = true ->
  (rate / 2 =? 0)%float = true \/ (f / (rate / 2) <=? 0)%float = true.
Proof.
  rewrite !leb_spec, ltb_spec, eqb_spec, !div_spec.
  change (Prim2SF 0) with (S754_zero false).
  change (Prim2SF infinity) with (S754_infinity false).
  change (Prim2SF 2) with (S754_finite false 4503599627370496 (-51)).
  set (two := S754_finite false 4503599627370496 (-51)).
  intros Hf Hfin Hr.
  assert (HR : nonpositive (Prim2SF rate)).
  { destruct (Prim2SF rate) as [s|[]| |[] m e]; try exact I; discriminate. }
  assert (HF : finite_nonnegative (Prim2SF f)).
  { destruct (Prim2SF f) as [s|[]| |[] m e]; try exact I; discriminate. }
  clear Hf Hfin Hr.
  assert (HN : nonpositive (SF64div (Prim2SF rate) two)).
  { destruct (Prim2SF rate) as [s|[]| |[] m e]; try contradiction;
      try exact I.
    pose proof (SFdiv_finite_signed true m e false 4503599627370496 (-51))
      as Hn.
    fold two in Hn.
    destruct (SF64div (S754_finite true m e) two) as [s|s| |s m' e'];
      cbn in Hn; try contradiction; subst s; exact I. }
  clear HR.
  destruct (SF64div (Prim2SF rate) two) as [s|[]| |[] m e];
    try contradiction.
  - left. reflexivity.
  - right. destruct (Prim2SF f) as [s|[]| |[] mf ef]; try contradiction;
      reflexivity.
  - right. destruct (Prim2SF f) as [s|[]| |[] mf ef]; try contradiction.
    + reflexivity.
    + apply signed_true_nonpositive.
      apply (SFdiv_finite_signed false mf ef true m e).
Qed.

(** C10, as stated, fails when the selector is negative too: at a rate of
    -500 Hz the selector ["-50"] has the normalized frequency
    [-50 / -250 = 0.2], the range test accepts it, and each stage filters
    the pulse: it returns a new array with other samples and prints
    nothing. *)
Lemma negative_selector_at_negative_rate_filters :
  let st := mkState [Ref.pulse] [] in
  Ref.py_float "-50" = Ok (-50)%float
  /\ out_of_range (-50 / (-500 / 2)) = false
  /\ (exists ys,
        apply_ac_filter Ref.externals 0 (-500) (Some "-50"%string) st
        = (Ok 1, mkState [Ref.pulse; ys] [])
        /\ ys <> Ref.pulse)
  /\ (exists ys,
        apply_emg_filter Ref.externals 0 (-500) (Some "-50"%string) st
        = (Ok 1, mkState [Ref.pulse; ys] [])
        /\ ys <> Ref.pulse)
  /\ (exists ys,
        apply_dft_filter Ref.externals 0 (-500) (Some "-50"%string) st
        = (Ok 1, mkState [Ref.pulse; ys] [])
        /\ ys <> Ref.pulse).
Proof.
  split; [reflexivity|]. split; [reflexivity|].
  split; [|split]; eexists; (split; [vm_compute; reflexivity|]);
    discriminate.
Qed.

(** C10, as the code has it. At a sampling rate [<= 0], a stage whose
    selector parses to a finite non-negative frequency returns its input
    buffer (the same object, the heap untouched) and raises nothing: when
    [sampling_rate / 2] is zero the division raises and the handler of
    the stage prints the error; otherwise the normalized frequency is
    [<= 0] and the range test skips the stage with its diagnostic. *)
Theorem nonpositive_rate_skips_stage (E : Externals) (g : stage)
    (signal : loc) (rate : float) (s : string) (f : float) (st : state) :
  enabled (Some s) = true ->
  py_float E s = Ok f ->
  (0 <=? f)%float = true ->
  (f <? infinity)%float = true ->
  (rate <=? 0)%float = true ->
  apply_stage E g signal rate (Some s) st
  = (Ok signal,
     mkState (heap st)
       (stdout st
        ++ [if (rate / 2 =? 0)%float
            then FilterError g (Some s) ZeroDivisionError
            else InvalidFrequency g f rate])).
Proof.
  intros Hen Hparse Hf Hfin Hrate. rewrite apply_stage_effect.
  unfold stage_effect. rewrite Hen, Hparse, truediv_two.
  unfold truediv at 1.
  destruct (nonpositive_rate_normalized f rate Hf Hfin Hrate) as [Hz|Hw].
  - rewrite Hz. reflexivity.
  - destruct (rate / 2 =? 0)%float; [reflexivity|].
    unfold out_of_range. rewrite Hw. reflexivity.
Qed.

Lemma nonpositive_rate_skips_stage_witness :
  let st := mkState [Ref.ramp 20] [] in
  apply_dft_filter Ref.externals 0 (-500) (Some "0.5"%string) st
  = (Ok 0, mkState [Ref.ramp 20] [InvalidFrequency DFT 0.5 (-500)])
  /\ apply_ac_filter Ref.externals 0 0 (Some "50"%string) st
     = (Ok 0,
        mkState [Ref.ramp 20]
          [FilterError AC (Some "50"%string) ZeroDivisionError]).
Proof.
  intros st. split.
  - apply (nonpositive_rate_skips_stage Ref.externals DFT 0 (-500)
             "0.5"%string 0.5%float st); reflexivity.
  - apply (nonpositive_rate_skips_stage Ref.externals AC 0 0
             "50"%string 50%float st); reflexivity.
Defined.

(** ** Further properties of the stages *)

(** X1. The AC stage, when the range test accepts the normalized frequency
    [w0], designs [iirnotch(w0, 30.0)] and returns what [filtfilt] makes of
    its input with those coefficients, as a new array. *)
Theorem notch_quality_and_zero_phase (E : Externals) (signal : loc)
    (rate : float) (s : string) (f : float) (st : state) :
  enabled (Some s) = true ->
  py_float E s = Ok f ->
  (rate / 2 =? 0)%float = false ->
  out_of_range (f / (rate / 2)) = false ->
  forall ba ys,
    iirnotch E (f / (rate / 2)) 30 = Ok ba ->
    filtfilt_samples E ba (contents st signal) = Ok ys ->
    apply_ac_filter E signal rate (Some s) st
    = (Ok (length (heap st)), mkState (heap st ++ [ys]) (stdout st)).
Proof.
  intros Hen Hf Hnyq Hw ba ys Hba Hys.
  now apply (in_range_stage E AC signal rate s) with (f := f) (ba := ba).
Qed.

Lemma notch_quality_and_zero_phase_witness :
  let st := mkState [Ref.pulse] [] in
  apply_ac_filter Ref.externals 0 500 (Some "50"%string) st
  = (Ok 1,
     mkState
       [Ref.pulse;
        repeat 0%float 8 ++ [1; 0; 2; 0; 1]%float ++ repeat 0%float 7]
       []).
Proof.
  intros st.
  apply (notch_quality_and_zero_phase Ref.externals 0 500 "50"%string
           50%float st eq_refl eq_refl eq_refl eq_refl
           ([1; 0; 1]%float, [1%float])); reflexivity.
Defined.

(** X2. A stage does one of three things: disabled, it returns its input and
    leaves the state as it is; enabled, it either returns its input, the
    heap untouched, and prints exactly one line, or returns a newly
    allocated array and prints nothing. *)
Theorem stage_prints_iff_it_does_not_filter (E : Externals) (g : stage)
    (signal : loc) (rate : float) (sel : selector) (st : state) :
  (enabled sel = false
   /\ apply_stage E g signal rate sel st = (Ok signal, st))
  \/ (enabled sel = true
      /\ exists msg,
           apply_stage E g signal rate sel st
           = (Ok signal, mkState (heap st) (stdout st ++ [msg])))
  \/ (enabled sel = true
      /\ exists ys,
           apply_stage E g signal rate sel st
           = (Ok (length (heap st)),
              mkState (heap st ++ [ys]) (stdout st))).
Proof.
  assert (Hkeep : forall msg,
            (true = true
             /\ exists msg',
                  commit signal (Keep [msg]) st
                  = (Ok signal, mkState (heap st) (stdout st ++ [msg'])))
            \/ (true = true
                /\ exists ys,
                     commit signal (Keep [msg]) st
                     = (Ok (length (heap st)),
                        mkState (heap st ++ [ys]) (stdout st)))).
  { intros msg. left. split; [reflexivity|]. now exists msg. }
  destruct (enabled sel) eqn:Hen.
  - right. rewrite apply_stage_effect. unfold stage_effect. rewrite Hen.
    destruct sel as [s|]; [|discriminate].
    destruct (py_float E s) as [f|e]; [|apply Hkeep].
    destruct (truediv rate 2) as [nyq|e]; [|apply Hkeep].
    destruct (truediv f nyq) as [w|e]; [|apply Hkeep].
    destruct (out_of_range w); [apply Hkeep|].
    destruct (design E g w) as [ba|e]; [|apply Hkeep].
    destruct (filtfilt_samples E ba (contents st signal)) as [ys|e];
      [|apply Hkeep].
    right. split; [reflexivity|]. now exists ys.
  - left. split; [reflexivity|]. now apply disabled_stage.
Qed.

Lemma zero_rate_nyquist (rate : float) :
  (rate =? 0)%float = true -> (rate / 2 =? 0)%float = true.
Proof.
  rewrite !eqb_spec, div_spec.
  change (Prim2SF 0) with (S754_zero false).
  change (Prim2SF 2) with (S754_finite false 4503599627370496 (-51)).
  destruct (Prim2SF rate) as [s|[]| |[] m e]; try discriminate.
  reflexivity.
Qed.

Lemma zero_rate_effect (E : Externals) (g : stage) (rate : float)
    (sel : selector) (xs : list float) :
  (rate =? 0)%float = true ->
  enabled sel = true ->
  exists e, stage_effect E g rate sel xs = Keep [FilterError g sel e].
Proof.
  intros Hz Hen. apply zero_rate_nyquist in Hz.
  unfold stage_effect. rewrite Hen.
  destruct sel as [s|]; [|eauto].
  destruct (py_float E s) as [f|e]; [|eauto].
  rewrite truediv_two. unfold truediv. rewrite Hz. eauto.
Qed.

Lemma zero_rate_stages_samples (E : Externals) (rate : float)
    (sel : stage -> selector) (gs : list stage) (xs : list float) :
  (rate =? 0)%float = true ->
  stages_samples E gs rate sel xs = xs.
Proof.
  intros Hz. induction gs as [|g gs IH]; [reflexivity|].
  cbn [stages_samples].
  destruct (enabled (sel g)) eqn:Hen.
  - destruct (zero_rate_effect E g rate (sel g) xs Hz Hen) as [e ->]. exact IH.
  - rewrite disabled_effect by assumption. exact IH.
Qed.

(** X3. At a sampling rate of zero (of either sign) nothing is ever filtered:
    [apply_ecg_filters] returns a buffer holding the samples of its input
    whatever the selectors, and an enabled stage returns its input and
    prints one error line (the selector did not parse, or the division by
    the zero Nyquist frequency raised). *)
Theorem zero_rate_never_filters (E : Externals) (signal : pyobj)
    (rate : float) (ac emg dft : selector) (st : state) :
  (rate =? 0)%float = true ->
  (exists r st',
     apply_ecg_filters E signal rate ac emg dft st = (Ok r, st')
     /\ contents st' r = samples st signal)
  /\ (forall g buf sel,
        enabled sel = true ->
        exists e,
          apply_stage E g buf rate sel st
          = (Ok buf,
             mkState (heap st) (stdout st ++ [FilterError g sel e]))).
Proof.
  intros Hz. split.
  - destruct (pipeline_run E signal rate ac emg dft st)
      as (r & st' & _ & Hrun & _ & _ & Hcont & _).
    exists r, st'. split; [exact Hrun|]. rewrite Hcont.
    unfold pipeline_samples.
    destruct (length (samples st signal) <? 10); [reflexivity|].
    now apply zero_rate_stages_samples.
  - intros g buf sel Hen.
    destruct (zero_rate_effect E g rate sel (contents st buf) Hz Hen) as [e He].
    exists e. rewrite apply_stage_effect, He. reflexivity.
Qed.

Lemma zero_rate_never_filters_witness :
  exists r st',
    apply_ecg_filters Ref.externals (PyList Ref.pulse) (-0)
      (Some "50"%string) (Some "150"%string) (Some "0.5"%string) Ref.empty
    = (Ok r, st')
    /\ contents st' r = Ref.pulse.
Proof.
  apply (zero_rate_never_filters Ref.externals (PyList Ref.pulse) (-0)
           (Some "50"%string) (Some "150"%string) (Some "0.5"%string)
           Ref.empty).
  reflexivity.
Defined.

(** At a positive rate, the Nyquist frequency [rate / 2] is zero or the
    quotient of a finite frequency [<= 0] by it is [<= 0]. *)
Lemma positive_rate_normalized (f rate : float) :
  (f <=? 0)%float = true ->
  (neg_infinity <? f)%float = true ->
  (0 <? rate)%float = true ->
  (rate / 2 =? 0)%float = true \/ (f / (rate / 2) <=? 0)%float = true.
Proof.
  rewrite !leb_spec, !ltb_spec, eqb_spec, !div_spec.
  change (Prim2SF 0) with (S754_zero false).
  change (Prim2SF neg_infinity) with (S754_infinity true).
  change (Prim2SF 2) with (S754_finite false 4503599627370496 (-51)).
  set (two := S754_finite false 4503599627370496 (-51)).
  intros Hf Hfin Hr.
  assert (HF : match Prim2SF f with
               | S754_zero _ | S754_finite true _ _ => True
               | _ => False
               end).
  { destruct (Prim2SF f) as [s|[]| |[] m e]; try exact I; discriminate. }
  assert (HN : signed false (SF64div (Prim2SF rate) two)).
  { destruct (Prim2SF rate) as [s|[]| |[] m e]; try discriminate.
    - reflexivity.
    - apply (SFdiv_finite_signed false m e false 4503599627370496 (-51)). }
  clear Hf Hfin Hr.
  destruct (SF64div (Prim2SF rate) two) as [s|s| |s m e];
    cbn in HN; try contradiction; subst s.
  - left. reflexivity.
  - right. destruct (Prim2SF f) as [s|[]| |[] mf ef]; try contradiction;
      reflexivity.
  - right. destruct (Prim2SF f) as [s|[]| |[] mf ef]; try contradiction.
    + reflexivity.
    + apply signed_true_nonpositive.
      apply (SFdiv_finite_signed true mf ef false m e).
Qed.

(** X4. At a positive sampling rate, a stage whose selector parses to zero or
    to a negative finite frequency never filters: it returns its input,
    the heap untouched, with the diagnostic of the range test (or, when
    [sampling_rate / 2] underflows to zero, with the division error). *)
Theorem nonpositive_frequency_skips_stage (E : Externals) (g : stage)
    (signal : loc) (rate : float) (s : string) (f : float) (st : state) :
  enabled (Some s) = true ->
  py_float E s = Ok f ->
  (f <=? 0)%float = true ->
  (neg_infinity <? f)%float = true ->
  (0 <? rate)%float = true ->
  apply_stage E g signal rate (Some s) st
  = (Ok signal,
     mkState (heap st)
       (stdout st
        ++ [if (rate / 2 =? 0)%float
            then FilterError g (Some s) ZeroDivisionError
            else InvalidFrequency g f rate])).
Proof.
  intros Hen Hparse Hf Hfin Hrate. rewrite apply_stage_effect.
  unfold stage_effect. rewrite Hen, Hparse, truediv_two.
  unfold truediv at 1.
  destruct (positive_rate_normalized f rate Hf Hfin Hrate) as [Hz|Hw].
  - rewrite Hz. reflexivity.
  - destruct (rate / 2 =? 0)%float; [reflexivity|].
    unfold out_of_range. rewrite Hw. reflexivity.
Qed.

Lemma nonpositive_frequency_skips_stage_witness :
  let st := mkState [Ref.pulse] [] in
  apply_emg_filter Ref.externals 0 500 (Some "-25"%string) st
  = (Ok 0, mkState [Ref.pulse] [InvalidFrequency EMG (-25) 500])
  /\ apply_dft_filter Ref.externals 0 500 (Some "0"%string) st
     = (Ok 0, mkState [Ref.pulse] [InvalidFrequency DFT 0 500]).
Proof.
  intros st. split.
  - apply (nonpositive_frequency_skips_stage Ref.externals EMG 0 500
             "-25"%string (-25)%float st); reflexivity.
  - apply (nonpositive_frequency_skips_stage Ref.externals DFT 0 500
             "0"%string 0%float st); reflexivity.
Defined.




(** ** The pipeline as a function of the heap *)

Lemma nth_middle (h : list (list float)) (xs : list float) :
  nth (length h) (h ++ [xs]) [] = xs.
Proof.
  rewrite app_nth2 by lia. now rewrite Nat.sub_diag.
Qed.

Lemma apply_stage_step (E : Externals) (g : stage) (buf : loc)
    (rate : float) (sel : selector) (st : state) :
  apply_stage E g buf rate sel st
  = (Ok (fst (step_heap E g rate sel (buf, heap st))),
     mkState (snd (step_heap E g rate sel (buf, heap st)))
       (stdout st
        ++ effect_output (stage_effect E g rate sel (contents st buf)))).
Proof.
  rewrite apply_stage_effect. unfold step_heap, contents. cbn [fst snd].
  destruct (stage_effect E g rate sel (nth buf (heap st) [])) as [msgs|ys];
    cbn; [reflexivity|]. now rewrite app_nil_r.
Qed.

Lemma compose_stages_functional (E : Externals) (rate : float)
    (sel : stage -> selector) (gs : list stage) :
  forall (buf : loc) (st : state),
    compose_stages E gs rate sel buf st
    = (Ok (fst (stages_heap E gs rate sel (buf, heap st))),
       mkState (snd (stages_heap E gs rate sel (buf, heap st)))
         (stdout st ++ stages_output E gs rate sel (contents st buf))).
Proof.
  induction gs as [|g gs IH]; intros buf st; cbn [compose_stages].
  - cbn. rewrite app_nil_r. now rewrite state_eta.
  - unfold bind. rewrite apply_stage_step, IH.
    cbn [stages_heap stages_output heap stdout].
    rewrite <- surjective_pairing, app_assoc.
    do 3 f_equal.
    unfold contents, step_heap. cbn [heap fst snd].
    fold (contents st buf).
    destruct (stage_effect E g rate (sel g) (contents st buf)) as [msgs|ys];
      cbn [effect_samples fst snd]; [reflexivity|].
    rewrite app_nth2 by lia. now rewrite Nat.sub_diag.
Qed.

Lemma long_signal_composition (E : Externals) (signal : pyobj)
    (rate : float) (ac emg dft : selector) (st : state) :
  10 <= length (samples st signal) ->
  apply_ecg_filters E signal rate ac emg dft st
  = (arr <- as_array signal ;;
     filtered <- copy arr ;;
     compose_stages E documented_order rate (selector_of ac emg dft)
       filtered) st.
Proof.
  intros Hlen. rewrite apply_ecg_filters_unfold.
  destruct (as_array_samples signal st) as (arr & s1 & Harr & Hc).
  rewrite !(@bind_ok _ _ _ _ _ _ _ Harr).
  unfold bind at 1, len. rewrite Hc.
  destruct (length (samples st signal) <? 10) eqn:Hlt; [|reflexivity].
  apply Nat.ltb_lt in Hlt. lia.
Qed.

(** The orchestrator, after its length test, in the same terms. *)
Lemma apply_ecg_filters_functional (E : Externals) (signal : pyobj)
    (rate : float) (ac emg dft : selector) (st : state) :
  10 <= length (samples st signal) ->
  let sel := selector_of ac emg dft in
  let h0 := match signal with
            | NdArray _ => heap st
            | PyList xs => heap st ++ [xs]
            end in
  let xs := samples st signal in
  let bh := stages_heap E documented_order rate sel
              (length h0, h0 ++ [xs]) in
  apply_ecg_filters E signal rate ac emg dft st
  = (Ok (fst bh),
     mkState (snd bh)
       (stdout st ++ stages_output E documented_order rate sel xs)).
Proof.
  intros Hlen sel h0 xs bh.
  rewrite long_signal_composition by assumption.
  destruct signal as [l|ys]; cbn [as_array samples] in *.
  - unfold bind at 1, ret at 1. unfold bind, copy, alloc.
    rewrite compose_stages_functional. cbn [heap stdout].
    rewrite contents_alloc_new. reflexivity.
  - unfold bind at 1, np_array, alloc. unfold bind, copy, alloc.
    rewrite compose_stages_functional. cbn [heap stdout].
    unfold contents. cbn [heap]. rewrite !nth_middle. reflexivity.
Qed.

Lemma apply_stage_same_or_disabled (E : Externals) (g : stage) (buf : loc)
    (rate : float) (sel sel' : selector) (st : state) :
  same_or_disabled sel sel' ->
  apply_stage E g buf rate sel st = apply_stage E g buf rate sel' st.
Proof.
  intros [->|[H H']]; [reflexivity|].
  now rewrite !disabled_stage.
Qed.

Lemma same_or_disabled_run (E : Externals) (signal : pyobj)
    (rate : float) (ac emg dft ac' emg' dft' : selector) (st : state) :
  same_or_disabled ac ac' ->
  same_or_disabled emg emg' ->
  same_or_disabled dft dft' ->
  apply_ecg_filters E signal rate ac emg dft st
  = apply_ecg_filters E signal rate ac' emg' dft' st.
Proof.
  intros Hac Hemg Hdft. rewrite !apply_ecg_filters_unfold.
  apply bind_ext; intros arr s1. apply bind_ext; intros n s2.
  destruct (n <? 10); [reflexivity|].
  apply bind_ext; intros buf s3.
  cbn [compose_stages documented_order selector_of].
  apply bind_cong; [now apply apply_stage_same_or_disabled|]. intros b1 t1.
  apply bind_cong; [now apply apply_stage_same_or_disabled|]. intros b2 t2.
  apply bind_cong; [now apply apply_stage_same_or_disabled|]. reflexivity.
Qed.

(** X6. For the orchestrator the disabled selectors are interchangeable:
    replacing any selector among ["off"], [None] and the empty string by
    another of them changes neither the result nor the state after the
    call. *)
Theorem disabled_selectors_interchangeable (E : Externals) (signal : pyobj)
    (rate : float) (ac emg dft ac' emg' dft' : selector) (st : state) :
  same_or_disabled ac ac' ->
  same_or_disabled emg emg' ->
  same_or_disabled dft dft' ->
  apply_ecg_filters E signal rate ac emg dft st
  = apply_ecg_filters E signal rate ac' emg' dft' st.
Proof.
  apply same_or_disabled_run.
Qed.

Lemma disabled_selectors_interchangeable_witness :
  let st := mkState [Ref.pulse] [] in
  apply_ecg_filters Ref.externals (NdArray 0) 500 (Some "off"%string)
    (Some "150"%string) None st
  = apply_ecg_filters Ref.externals (NdArray 0) 500 None
      (Some "150"%string) (Some ""%string) st.
Proof.
  intros st.
  apply (disabled_selectors_interchangeable Ref.externals (NdArray 0) 500
           (Some "off"%string) (Some "150"%string) None None
           (Some "150"%string) (Some ""%string) st).
  - right. split; reflexivity.
  - left. reflexivity.
  - right. split; reflexivity.
Defined.




Lemma enabled_effect_shape (E : Externals) (g : stage) (rate : float)
    (sel : selector) (xs : list float) :
  enabled sel = true ->
  (exists msg, stage_effect E g rate sel xs = Keep [msg])
  \/ (exists ys, stage_effect E g rate sel xs = Fresh ys).
Proof.
  intros Hen. unfold stage_effect. rewrite Hen.
  destruct sel as [s|]; [|eauto].
  destruct (py_float E s) as [f|e]; [|eauto].
  destruct (truediv rate 2) as [nyq|e]; [|eauto].
  destruct (truediv f nyq) as [w|e]; [|eauto].
  destruct (out_of_range w); [eauto|].
  destruct (design E g w) as [ba|e]; [|eauto].
  destruct (filtfilt_samples E ba xs) as [ys|e]; eauto.
Qed.

Lemma step_heap_accounts (E : Externals) (g : stage) (rate : float)
    (sel : selector) (b : loc) (h : list (list float)) :
  let eff := stage_effect E g rate sel (nth b h []) in
  let bh := step_heap E g rate sel (b, h) in
  exists extra,
    snd bh = h ++ extra
    /\ length extra + length (effect_output eff)
       = (if enabled sel then 1 else 0)
    /\ nth (fst bh) (snd bh) [] = effect_samples (nth b h []) eff.
Proof.
  intros eff bh. unfold bh, step_heap. cbn [fst snd]. fold eff.
  destruct (enabled sel) eqn:Hen.
  - destruct (enabled_effect_shape E g rate sel (nth b h []) Hen)
      as [[msg He]|[ys He]]; fold eff in He; rewrite He; cbn.
    + exists []. rewrite app_nil_r. auto.
    + exists [ys]. rewrite nth_middle. auto.
  - pose proof (disabled_effect E g rate sel (nth b h []) Hen) as He.
    fold eff in He. rewrite He. cbn. exists []. rewrite app_nil_r. auto.
Qed.

Lemma stages_heap_accounts (E : Externals) (rate : float)
    (sel : stage -> selector) (gs : list stage) :
  forall (b : loc) (h : list (list float)),
  exists extra,
    snd (stages_heap E gs rate sel (b, h)) = h ++ extra
    /\ length extra + length (stages_output E gs rate sel (nth b h []))
       = enabled_count (map sel gs).
Proof.
  induction gs as [|g gs IH]; intros b h.
  - exists []. cbn. rewrite app_nil_r. auto.
  - cbn [stages_heap stages_output map].
    destruct (step_heap_accounts E g rate (sel g) b h)
      as (ex1 & Hh1 & Hn1 & Hc1).
    destruct (step_heap E g rate (sel g) (b, h)) as [b1 h1] eqn:Hstep.
    cbn [fst snd] in Hh1, Hc1.
    destruct (IH b1 h1) as (ex2 & Hh2 & Hn2).
    exists (ex1 ++ ex2). rewrite Hh2, Hh1, app_assoc.
    split; [reflexivity|].
    rewrite Hc1 in Hn2. rewrite !length_app.
    unfold enabled_count in *. cbn [filter].
    destruct (enabled (sel g)); cbn [length]; lia.
Qed.

(** X8. On an input of at least 10 samples every enabled stage is accounted
    for: it either allocated one array or printed one line, never both
    and never more.  The arrays the call allocates (beside the copy, and
    the array made of a list input) and the lines it prints are together
    as many as the enabled selectors; existing arrays are left alone. *)
Theorem enabled_stages_accounted_for (E : Externals) (signal : pyobj)
    (rate : float) (ac emg dft : selector) (st : state) :
  10 <= length (samples st signal) ->
  exists r st' extra printed,
    apply_ecg_filters E signal rate ac emg dft st = (Ok r, st')
    /\ heap st' = heap st ++ extra
    /\ stdout st' = stdout st ++ printed
    /\ length extra + length printed
       = match signal with
         | NdArray _ => 1
         | PyList _ => 2
         end + enabled_count [dft; emg; ac].
Proof.
  intros Hlen. rewrite apply_ecg_filters_functional by assumption.
  set (sel := selector_of ac emg dft).
  set (h0 := match signal with
             | NdArray _ => heap st
             | PyList xs => heap st ++ [xs]
             end).
  set (xs := samples st signal).
  destruct (stages_heap_accounts E rate sel documented_order (length h0)
              (h0 ++ [xs])) as (ex & Hh & Hn).
  rewrite nth_middle in Hn. change (map sel documented_order)
    with [dft; emg; ac] in Hn.
  eexists _, _,
    (match signal with NdArray _ => [] | PyList ys => [ys] end ++ [xs] ++ ex),
    _.
  split; [reflexivity|]. cbn [heap stdout]. split.
  - transitivity ((h0 ++ [xs]) ++ ex); [exact Hh|].
    unfold h0. destruct signal; cbn [app]; now rewrite <- ?app_assoc.
  - split; [reflexivity|]. rewrite !length_app.
    destruct signal; cbn [length]; lia.
Qed.

Lemma enabled_stages_accounted_for_witness :
  let st := Ref.empty in
  exists r st' extra printed,
    apply_ecg_filters Ref.externals (PyList Ref.pulse) 100 (Some "60"%string)
      (Some "off"%string) (Some "0.5"%string) st = (Ok r, st')
    /\ heap st' = heap st ++ extra
    /\ stdout st' = stdout st ++ printed
    /\ length extra + length printed = 2 + 2.
Proof.
  intros st.
  apply (enabled_stages_accounted_for Ref.externals (PyList Ref.pulse) 100
           (Some "60"%string) (Some "off"%string) (Some "0.5"%string) st).
  vm_compute; lia.
Defined.

(** ** The settings adapter *)



(** X10. With a manager that holds none of the three keys and so answers each
    lookup with its default, the notch stage never runs: on an input of
    at least 10 samples the call is a copy of the input put through the
    DFT stage at ["0.5"] and then the EMG stage at ["150"]. *)
Theorem default_settings_pipeline (E : Externals)
    (SettingsManager m : settings) (signal : pyobj) (rate : float)
    (st : state) :
  (forall d, m "filter_ac"%string d = d) ->
  (forall d, m "filter_emg"%string d = d) ->
  (forall d, m "filter_dft"%string d = d) ->
  10 <= length (samples st signal) ->
  apply_ecg_filters_from_settings E SettingsManager signal rate (Some m) st
  = (arr <- as_array signal ;;
     filtered <- copy arr ;;
     filtered <- apply_dft_filter E filtered rate (Some "0.5"%string) ;;
     filtered <- apply_emg_filter E filtered rate (Some "150"%string) ;;
     ret filtered) st.
Proof.
  intros Hac Hemg Hdft Hlen. unfold apply_ecg_filters_from_settings.
  rewrite Hac, Hemg, Hdft. rewrite long_signal_composition by assumption.
  apply bind_ext; intros arr s1. apply bind_ext; intros buf s2.
  cbn [compose_stages documented_order selector_of apply_stage].
  apply bind_ext; intros b1 t1. apply bind_ext; intros b2 t2.
  unfold bind. change (apply_ac_filter E) with (apply_stage E AC).
  now rewrite disabled_stage.
Qed.

Lemma default_settings_pipeline_witness :
  let defaults : settings := fun _ d => d in
  let st := mkState [Ref.pulse] [] in
  apply_ecg_filters_from_settings Ref.externals defaults (NdArray 0) 500
    (Some defaults) st
  = (arr <- as_array (NdArray 0) ;;
     filtered <- copy arr ;;
     filtered <- apply_dft_filter Ref.externals filtered 500
                   (Some "0.5"%string) ;;
     filtered <- apply_emg_filter Ref.externals filtered 500
                   (Some "150"%string) ;;
     ret filtered) st.
Proof.
  intros defaults st.
  apply (default_settings_pipeline Ref.externals defaults defaults
           (NdArray 0) 500 st); try reflexivity.
  vm_compute; lia.
Defined.

(** ** The ADC table script *)

Import AdcData.

Lemma all_digits_app (s t : string) :
  all_digits (s ++ t) = all_digits s && all_digits t.
Proof.
  induction s as [|c s IH]; cbn; [reflexivity|].
  now rewrite IH, andb_assoc.
Qed.

Lemma findall_digits_all_digits (s : string) :
  forall run,
    all_digits run = true ->
    Forall (fun n => all_digits n = true) (findall_digits run s).
Proof.
  induction s as [|c s IH]; intros run Hrun; cbn.
  - destruct run; cbn; auto.
  - destruct (isdigit c) eqn:Hc.
    + apply IH. rewrite all_digits_app. cbn. now rewrite Hrun, Hc.
    + apply Forall_app. split; [destruct run; cbn; auto|].
      now apply IH.
Qed.

Lemma int_of_digits_nonneg (s : string) :
  forall acc,
    (0 <= acc)%Z -> all_digits s = true -> (0 <= int_of_digits acc s)%Z.
Proof.
  induction s as [|c s IH]; intros acc Hacc Hs;
    cbn [int_of_digits all_digits] in *; [assumption|].
  apply andb_prop in Hs as [Hc Hs]. apply IH; [|assumption].
  unfold isdigit in Hc. apply andb_prop in Hc as [Hlo _].
  apply Nat.leb_le in Hlo. lia.
Qed.

Lemma Forall_firstn_digits (n : nat) (numbers : list string) :
  Forall (fun s => all_digits s = true) numbers ->
  Forall (fun s => all_digits s = true) (firstn n numbers).
Proof.
  intros H. revert n.
  induction H as [|x l Hx Hl IH]; intros [|n]; cbn; auto.
Qed.

Lemma ints_shape (limit : option nat) (numbers : list string) :
  forall row,
    Forall (fun n => all_digits n = true) numbers ->
    ints limit numbers = Done row ->
    length row = length numbers /\ Forall (fun v => (0 <= v)%Z) row.
Proof.
  induction numbers as [|n numbers IH]; intros row Hd; cbn.
  - intros [= <-]. auto.
  - inversion Hd as [|? ? Hn Hrest]; subst.
    destruct (py_int limit n) as [v|e] eqn:Hv; [|discriminate].
    destruct (ints limit numbers) as [vs|e] eqn:Hvs; [|discriminate].
    intros [= <-]. destruct (IH vs Hrest eq_refl) as [Hlen Hpos].
    split; [cbn; now rewrite Hlen|]. constructor; [|assumption].
    unfold py_int in Hv.
    destruct limit as [l|];
      [destruct (l <? String.length n); [discriminate|]|];
      injection Hv as <-; now apply int_of_digits_nonneg.
Qed.

Lemma read_adc_lines_shape (limit : option nat) (stdin : list string) :
  forall acc rows,
    Forall well_formed_row acc ->
    read_adc_lines limit stdin acc = Done rows ->
    Forall well_formed_row rows
    /\ length rows <= length acc + length stdin.
Proof.
  induction stdin as [|line stdin IH]; intros acc rows Hacc;
    cbn [read_adc_lines].
  - intros [= <-]. split; [assumption|lia].
  - destruct (is_data_line (strip line)).
    + destruct (8 <=? length (findall_digits "" (strip line))) eqn:Hn.
      * destruct (ints limit (firstn 8 (findall_digits "" (strip line))))
          as [row|e] eqn:Hrow; [|discriminate].
        intros Hread. apply IH in Hread.
        -- destruct Hread as [Hwf Hle]. split; [assumption|].
           rewrite length_app in Hle. cbn [length] in *. lia.
        -- apply Forall_app. split; [assumption|]. constructor; [|constructor].
           apply Nat.leb_le in Hn.
           apply ints_shape in Hrow.
           ++ destruct Hrow as [Hlen Hpos]. split; [|assumption].
              rewrite Hlen, length_firstn. lia.
           ++ apply Forall_firstn_digits.
              now apply findall_digits_all_digits.
      * intros Hread. apply IH in Hread; [|assumption].
        destruct Hread. split; [assumption|cbn [length]; lia].
    + intros Hread. apply IH in Hread; [|assumption].
      destruct Hread. split; [assumption|cbn [length]; lia].
Qed.

(** X11. When the first loop ends, every row of [adc_lines] has exactly eight
    values and none of them is negative (a minus sign before a number is
    not read), and there are at most as many rows as input lines. *)
Theorem adc_rows_have_eight_nonnegative_values (limit : option nat)
    (stdin : list string) (adc_lines : list (list Z)) :
  read_adc_lines limit stdin [] = Done adc_lines ->
  Forall well_formed_row adc_lines
  /\ length adc_lines <= length stdin.
Proof.
  intros Hread.
  now apply (read_adc_lines_shape limit stdin [] adc_lines) in Hread.
Qed.

Lemma adc_rows_have_eight_nonnegative_values_witness :
  let stdin := ["$ADC"; "10 -20 30 40 50 60 70 80 90"; "1 2 3"]%string in
  let adc_lines := [[10; 20; 30; 40; 50; 60; 70; 80]%Z] in
  Forall well_formed_row adc_lines /\ length adc_lines <= length stdin.
Proof.
  intros stdin adc_lines.
  apply (adc_rows_have_eight_nonnegative_values (Some 4300) stdin adc_lines).
  reflexivity.
Defined.

Lemma read_adc_lines_passed_over (limit : option nat) (line : string)
    (before after : list string) :
  passed_over line = true ->
  forall acc,
    read_adc_lines limit (before ++ line :: after) acc
    = read_adc_lines limit (before ++ after) acc.
Proof.
  intros Hp. induction before as [|l before IH]; intros acc;
    cbn [app read_adc_lines].
  - unfold passed_over in Hp. apply orb_prop in Hp as [Hp|Hp].
    + apply negb_true_iff in Hp. now rewrite Hp.
    + destruct (is_data_line (strip line)); [|reflexivity].
      apply Nat.ltb_lt in Hp.
      destruct (8 <=? length (findall_digits "" (strip line))) eqn:Hn;
        [|reflexivity].
      apply Nat.leb_le in Hn. lia.
  - destruct (is_data_line (strip l)); [|apply IH].
    destruct (8 <=? length (findall_digits "" (strip l))); [|apply IH].
    destruct (ints limit (firstn 8 (findall_digits "" (strip l))));
      [apply IH|reflexivity].
Qed.

(** X12. A line that is blank, or starts (after stripping) with ["$"] or with
    ["----"], or holds fewer than eight numbers, has no effect: the
    script prints and ends the same with the line and without it,
    wherever the line stands in the input. *)
Theorem passed_over_lines_change_nothing (limit : option nat)
    (line : string) (before after : list string) :
  passed_over line = true ->
  script limit (before ++ line :: after) = script limit (before ++ after).
Proof.
  intros Hp. unfold script.
  now rewrite read_adc_lines_passed_over.
Qed.

Lemma passed_over_lines_change_nothing_witness :
  script None
    ["1 2 3 4 5 6 7 8"; "  ---- 1 2 3 4 5 6 7 8 9"; "8 7 6 5 4 3 2 1"]%string
  = script None ["1 2 3 4 5 6 7 8"; "8 7 6 5 4 3 2 1"]%string.
Proof.
  apply (passed_over_lines_change_nothing None
           "  ---- 1 2 3 4 5 6 7 8 9"%string
           ["1 2 3 4 5 6 7 8"%string] ["8 7 6 5 4 3 2 1"%string]).
  reflexivity.
Defined.

Lemma collect_row_columns (l0 l1 l2 l3 l4 l5 l6 l7 row : list Z) :
  collect_row (leads_of l0 l1 l2 l3 l4 l5 l6 l7) row
  = if 8 <=? length row then
      leads_of (l0 ++ [item row 0]) (l1 ++ [item row 1])
        (l2 ++ [item row 2]) (l3 ++ [item row 3]) (l4 ++ [item row 4])
        (l5 ++ [item row 5]) (l6 ++ [item row 6]) (l7 ++ [item row 7])
    else leads_of l0 l1 l2 l3 l4 l5 l6 l7.
Proof.
  unfold collect_row. destruct (8 <=? length row); reflexivity.
Qed.

Lemma collect_from_columns (adc_lines : list (list Z)) :
  forall l0 l1 l2 l3 l4 l5 l6 l7,
    let rows := filter (fun row => 8 <=? length row) adc_lines in
    fold_left collect_row adc_lines (leads_of l0 l1 l2 l3 l4 l5 l6 l7)
    = leads_of (l0 ++ column 0 rows) (l1 ++ column 1 rows)
        (l2 ++ column 2 rows) (l3 ++ column 3 rows) (l4 ++ column 4 rows)
        (l5 ++ column 5 rows) (l6 ++ column 6 rows) (l7 ++ column 7 rows).
Proof.
  induction adc_lines as [|row adc_lines IH]; intros l0 l1 l2 l3 l4 l5 l6 l7;
    cbn [fold_left filter].
  - cbn. now rewrite !app_nil_r.
  - rewrite collect_row_columns.
    destruct (8 <=? length row); rewrite IH; [|reflexivity].
    cbn [column map]. now rewrite <- !app_assoc.
Qed.

Lemma collect_columns (adc_lines : list (list Z)) :
  let rows := filter (fun row => 8 <=? length row) adc_lines in
  collect adc_lines
  = leads_of (column 0 rows) (column 1 rows) (column 2 rows)
      (column 3 rows) (column 4 rows) (column 5 rows) (column 6 rows)
      (column 7 rows).
Proof.
  apply (collect_from_columns adc_lines [] [] [] [] [] [] [] []).
Qed.

(** X13. After the second loop each lead holds a column of the rows: the lead
    number [k] (in the order I, II, III, aVR, aVL, aVF, V1, V2) holds the
    values at index [k] of the rows of at least eight values, in the
    order of the rows; so the eight leads hold equally many values. *)
Theorem leads_are_the_columns (adc_lines : list (list Z)) (k : nat) :
  k < 8 ->
  let rows := filter (fun row => 8 <=? length row) adc_lines in
  get (collect adc_lines) (nth k lead_names EmptyString) = column k rows
  /\ length (get (collect adc_lines) (nth k lead_names EmptyString))
     = length rows.
Proof.
  intros Hk rows.
  assert (Hget : get (collect adc_lines) (nth k lead_names EmptyString)
                 = column k rows).
  { rewrite collect_columns. fold rows.
    do 8 (destruct k as [|k]; [reflexivity|]). lia. }
  split; [exact Hget|]. rewrite Hget. apply length_map.
Qed.

Lemma leads_are_the_columns_witness :
  get (collect [[1; 2; 3; 4; 5; 6; 7; 8]; [9; 9];
                [11; 12; 13; 14; 15; 16; 17; 18]]%Z) "aVR"
  = [4; 14]%Z.
Proof.
  apply (leads_are_the_columns
           [[1; 2; 3; 4; 5; 6; 7; 8]; [9; 9];
            [11; 12; 13; 14; 15; 16; 17; 18]]%Z 3).
  lia.
Defined.

Lemma py_max_spec (xs : list Z) :
  forall x,
    In (py_max x xs) (x :: xs)
    /\ Forall (fun v => (v <= py_max x xs)%Z) (x :: xs).
Proof.
  unfold py_max. induction xs as [|y xs IH]; intros x; cbn [fold_left].
  - split; [now left|]. constructor; [lia|constructor].
  - destruct (IH (Z.max x y)) as [Hin Hall].
    inversion Hall as [|? ? Hm Hrest]; subst. split.
    + destruct Hin as [Hin|Hin]; [|now right; right].
      rewrite <- Hin.
      destruct (Z.max_spec x y) as [[_ ->]|[_ ->]]; [right; now left|now left].
    + constructor; [lia|]. constructor; [lia|assumption].
Qed.

Lemma adc_per_box_nonzero (a : float) :
  truediv a adc_per_box = Ok (a / adc_per_box)%float.
Proof. reflexivity. Qed.

(** One step of the third loop on a lead that holds the column [k] of
    rows that are not empty. *)
Lemma print_rows_step (rows : list (list Z)) (d : leads) (k : nat)
    (rest : list string) (out : list printed) :
  rows <> [] ->
  get d (nth k lead_names EmptyString) = column k rows ->
  (exists e,
     print_rows d (nth k lead_names EmptyString :: rest) out = (out, Some e))
  \/ (exists line,
        is_row_of rows k line
        /\ print_rows d (nth k lead_names EmptyString :: rest) out
           = print_rows d rest (out ++ [line])).
Proof.
  intros Hne Hget. cbn [print_rows]. rewrite Hget.
  destruct rows as [|row rows]; [contradiction|].
  cbn [column map].
  fold (column k rows).
  destruct (py_max_spec (column k rows) (item row k)) as [Hin Hall].
  destruct (float_of_int (py_max (item row k) (column k rows)))
    as [h|e] eqn:Hh; [|left; now exists e].
  right. rewrite adc_per_box_nonzero.
  eexists. split; [|reflexivity].
  exists (py_max (item row k) (column k rows)), h.
  repeat split; assumption.
Qed.

Lemma well_formed_rows_kept (adc_lines : list (list Z)) :
  Forall well_formed_row adc_lines ->
  filter (fun row => 8 <=? length row) adc_lines = adc_lines.
Proof.
  induction 1 as [|row rows [Hlen _] _ IH]; cbn [filter]; [reflexivity|].
  rewrite Hlen. change (8 <=? 8) with true. cbv iota. now rewrite IH.
Qed.

(** X14. When the script runs to its end, the table between the header and the
    footer is all or nothing: empty when no line of the input held eight
    numbers, and otherwise exactly eight rows, one per lead in the order
    I, II, III, aVR, aVL, aVF, V1, V2.  The row of lead number [k] shows
    the maximum of column [k] of the rows read (a value of the column, no
    value of the column above it), that maximum minus the baseline 2000.0,
    and the difference divided by 750.0 ADC units per box. *)
Theorem table_is_all_or_nothing (limit : option nat) (stdin : list string)
    (adc_lines : list (list Z)) (out : list printed) :
  read_adc_lines limit stdin [] = Done adc_lines ->
  script limit stdin = (out, None) ->
  (adc_lines = [] /\ out = header ++ footer)
  \/ (adc_lines <> []
      /\ exists table,
           out = header ++ table ++ footer
           /\ length table = 8
           /\ forall k, k < 8 ->
                exists line,
                  nth_error table k = Some line
                  /\ is_row_of adc_lines k line).
Proof.
  intros Hread Hs. unfold script in Hs. rewrite Hread in Hs.
  pose proof (read_adc_lines_shape limit stdin [] adc_lines
                (Forall_nil _) Hread) as [Hwf _].
  assert (Hd : forall k, k < 8 ->
            get (collect adc_lines) (nth k lead_names EmptyString)
            = column k adc_lines).
  { intros k Hk. rewrite collect_columns, well_formed_rows_kept by assumption.
    do 8 (destruct k as [|k]; [reflexivity|]). lia. }
  destruct adc_lines as [|row rows] eqn:Hrows.
  - left. split; [reflexivity|]. cbn in Hs. now injection Hs as <-.
  - right. split; [discriminate|]. rewrite <- Hrows in *.
    assert (Hne : adc_lines <> []) by (rewrite Hrows; discriminate).
    clear Hrows Hread Hwf row rows.
    set (d := collect adc_lines) in *.
    set (name := fun k => nth k lead_names EmptyString).
    change lead_names
      with [name 0; name 1; name 2; name 3; name 4; name 5; name 6; name 7]
      in Hs.
    destruct (print_rows_step adc_lines d 0
                [name 1; name 2; name 3; name 4; name 5; name 6; name 7]
                header Hne (Hd 0 ltac:(lia)))
      as [[e He]|(r0 & Hr0 & He)];
      fold (name 0) in He; rewrite He in Hs; [discriminate|]. clear He.
    destruct (print_rows_step adc_lines d 1
                [name 2; name 3; name 4; name 5; name 6; name 7]
                (header ++ [r0]) Hne (Hd 1 ltac:(lia)))
      as [[e He]|(r1 & Hr1 & He)];
      fold (name 1) in He; rewrite He in Hs; [discriminate|]. clear He.
    destruct (print_rows_step adc_lines d 2
                [name 3; name 4; name 5; name 6; name 7]
                ((header ++ [r0]) ++ [r1]) Hne (Hd 2 ltac:(lia)))
      as [[e He]|(r2 & Hr2 & He)];
      fold (name 2) in He; rewrite He in Hs; [discriminate|]. clear He.
    destruct (print_rows_step adc_lines d 3
                [name 4; name 5; name 6; name 7]
                (((header ++ [r0]) ++ [r1]) ++ [r2]) Hne (Hd 3 ltac:(lia)))
      as [[e He]|(r3 & Hr3 & He)];
      fold (name 3) in He; rewrite He in Hs; [discriminate|]. clear He.
    destruct (print_rows_step adc_lines d 4 [name 5; name 6; name 7]
                ((((header ++ [r0]) ++ [r1]) ++ [r2]) ++ [r3]) Hne
                (Hd 4 ltac:(lia)))
      as [[e He]|(r4 & Hr4 & He)];
      fold (name 4) in He; rewrite He in Hs; [discriminate|]. clear He.
    destruct (print_rows_step adc_lines d 5 [name 6; name 7]
                (((((header ++ [r0]) ++ [r1]) ++ [r2]) ++ [r3]) ++ [r4]) Hne
                (Hd 5 ltac:(lia)))
      as [[e He]|(r5 & Hr5 & He)];
      fold (name 5) in He; rewrite He in Hs; [discriminate|]. clear He.
    destruct (print_rows_step adc_lines d 6 [name 7]
                ((((((header ++ [r0]) ++ [r1]) ++ [r2]) ++ [r3]) ++ [r4])
                 ++ [r5]) Hne (Hd 6 ltac:(lia)))
      as [[e He]|(r6 & Hr6 & He)];
      fold (name 6) in He; rewrite He in Hs; [discriminate|]. clear He.
    destruct (print_rows_step adc_lines d 7 []
                (((((((header ++ [r0]) ++ [r1]) ++ [r2]) ++ [r3]) ++ [r4])
                  ++ [r5]) ++ [r6]) Hne (Hd 7 ltac:(lia)))
      as [[e He]|(r7 & Hr7 & He)];
      fold (name 7) in He; rewrite He in Hs; [discriminate|]. clear He.
    cbn [print_rows] in Hs. injection Hs as <-.
    exists [r0; r1; r2; r3; r4; r5; r6; r7].
    split; [reflexivity|]. split; [reflexivity|].
    intros k Hk.
    do 8 (destruct k as [|k]; [eexists; split; [reflexivity|assumption]|]).
    lia.
Qed.

Lemma table_is_all_or_nothing_witness :
  let stdin := ["$ADC"; "2001 2750 3 4 5 6 7 8"; "1 2 3";
                "10 -20 30 40 50 60 70 80 90"]%string in
  let adc_lines := [[2001; 2750; 3; 4; 5; 6; 7; 8];
                    [10; 20; 30; 40; 50; 60; 70; 80]]%Z in
  exists table,
    fst (script (Some 4300) stdin) = header ++ table ++ footer
    /\ length table = 8
    /\ forall k, k < 8 ->
         exists line,
           nth_error table k = Some line /\ is_row_of adc_lines k line.
Proof.
  intros stdin adc_lines.
  destruct (table_is_all_or_nothing (Some 4300) stdin adc_lines
              (fst (script (Some 4300) stdin)) eq_refl eq_refl)
    as [[Hnil _]|[_ Htable]]; [discriminate|exact Htable].
Defined.
